(** * Gravity-Wells: the physics engine and the flight state machine

    A shallow embedding of [game/physics.py] (Vector2D, PhysicsEngine),
    of the spaceship part of [game/objects.py] and of the flight control
    of [game/engine.py].  Python floats are modelled as real numbers
    ([R]); integer counters ([fuel], [shots_used], [max_shots]) as [Z].
    Methods that mutate an object return the updated value. *)

From Stdlib Require Import Reals Psatz List ZArith Bool Setoid.
From Stdlib Require String.
Import ListNotations.
Open Scope R_scope.
Open Scope bool_scope.
Import String.StringSyntax.

(** Strict comparison as a boolean, as Python's [<] on floats. *)
Definition Rltb (x y : R) : bool := if Rlt_dec x y then true else false.

(** ** physics.py *)

(** [class Vector2D] *)
Record Vector2D := mkVector2D { vx : R; vy : R }.

Definition vadd (a b : Vector2D) : Vector2D :=
  mkVector2D (vx a + vx b) (vy a + vy b).

Definition vsub (a b : Vector2D) : Vector2D :=
  mkVector2D (vx a - vx b) (vy a - vy b).

(** [__mul__]: scaling by a scalar. *)
Definition vmul (a : Vector2D) (scalar : R) : Vector2D :=
  mkVector2D (vx a * scalar) (vy a * scalar).

(** [__truediv__] *)
Definition vdiv (a : Vector2D) (scalar : R) : Vector2D :=
  mkVector2D (vx a / scalar) (vy a / scalar).

(** [math.sqrt(self.x**2 + self.y**2)] *)
Definition magnitude (v : Vector2D) : R := sqrt (vx v ^ 2 + vy v ^ 2).

Definition normalize (v : Vector2D) : Vector2D :=
  let mag := magnitude v in
  if Rltb 0 mag then mkVector2D (vx v / mag) (vy v / mag)
  else mkVector2D 0 0.

Definition to_tuple (v : Vector2D) : R * R := (vx v, vy v).

(** [class PhysicsEngine]: its two tunable fields. *)
Record PhysicsEngine := mkPhysicsEngine {
  gravity_constant : R;
  max_gravity_distance : R
}.

(** [PhysicsEngine.__init__]: [gravity_constant = 5000],
    [max_gravity_distance = 500]. *)
Definition default_physics : PhysicsEngine := mkPhysicsEngine 5000 500.

(** The kinds of level objects (subclasses of [GameObject]). *)
Inductive ObjKind := KPlanet | KBlackHole | KAntiGravityWell | KGoal | KObstacle.

(** A level object ([GameObject]) as the physics and collision code read it.
    [obj_id] stands for the Python object identity used by [obj == goal]
    ([GameObject] defines no [__eq__]); [anti_gravity] is
    [hasattr(source, 'anti_gravity') and source.anti_gravity]. *)
Record GameObject := mkGameObject {
  obj_id : nat;
  kind : ObjKind;
  position : Vector2D;
  mass : R;
  radius : R;
  anti_gravity : bool
}.

(** [calculate_gravity_force(obj1_pos, obj1_mass, obj2_pos, obj2_mass)] *)
Definition calculate_gravity_force (pe : PhysicsEngine)
    (obj1_pos : Vector2D) (obj1_mass : R) (obj2_pos : Vector2D) (obj2_mass : R)
    : Vector2D :=
  let direction := vsub obj2_pos obj1_pos in
  let distance := magnitude direction in
  if Rltb distance 5 then mkVector2D 0 0
  else if Rltb (max_gravity_distance pe) distance then mkVector2D 0 0
  else
    let force_magnitude :=
      (gravity_constant pe * obj1_mass * obj2_mass) / (distance ^ 2) in
    let force_direction := normalize direction in
    vmul force_direction force_magnitude.

(** [calculate_total_gravity(position, mass, gravity_sources)]: the loop
    accumulating into [total_force]. *)
Definition calculate_total_gravity (pe : PhysicsEngine) (pos : Vector2D)
    (m : R) (gravity_sources : list GameObject) : Vector2D :=
  fold_left
    (fun total_force source =>
       let force := calculate_gravity_force pe pos m (position source) (mass source) in
       let force := if anti_gravity source then vmul force (-1) else force in
       vadd total_force force)
    gravity_sources (mkVector2D 0 0).

(** [update_object_physics(obj, gravity_sources, dt)] on the object's
    position, velocity and mass; returns the new (position, velocity). *)
Definition update_object_physics (pe : PhysicsEngine) (pos vel : Vector2D)
    (m : R) (gravity_sources : list GameObject) (dt : R) : Vector2D * Vector2D :=
  let gravity_force := calculate_total_gravity pe pos m gravity_sources in
  let acceleration := vdiv gravity_force m in
  let vel' := vadd vel (vmul acceleration dt) in
  let pos' := vadd pos (vmul vel' dt) in
  (pos', vel').

(** The early-exit test of [predict_trajectory]. *)
Definition predict_out_of_bounds (pos : Vector2D) : bool :=
  Rltb (vx pos) (-500) || Rltb 1500 (vx pos) ||
  Rltb (vy pos) (-500) || Rltb 1200 (vy pos).

(** The [for _ in range(steps)] loop of [predict_trajectory]: record the
    position, take one step, stop when the new position is off bounds. *)
Fixpoint predict_loop (pe : PhysicsEngine) (m : R)
    (gravity_sources : list GameObject) (dt : R) (n : nat)
    (pos vel : Vector2D) : list (R * R) :=
  match n with
  | O => []
  | S n' =>
      let gravity_force := calculate_total_gravity pe pos m gravity_sources in
      let acceleration := vdiv gravity_force m in
      let vel' := vadd vel (vmul acceleration dt) in
      let pos' := vadd pos (vmul vel' dt) in
      (vx pos, vy pos) ::
        (if predict_out_of_bounds pos' then []
         else predict_loop pe m gravity_sources dt n' pos' vel')
  end.

(** [predict_trajectory(start_pos, start_vel, mass, gravity_sources, steps, dt)];
    [range(steps)] is empty for [steps <= 0]. *)
Definition predict_trajectory (pe : PhysicsEngine) (start_pos start_vel : Vector2D)
    (m : R) (gravity_sources : list GameObject) (steps : Z) (dt : R)
    : list (R * R) :=
  predict_loop pe m gravity_sources dt (Z.to_nat steps)
    (mkVector2D (vx start_pos) (vy start_pos))
    (mkVector2D (vx start_vel) (vy start_vel)).

(** The call with the default arguments [steps=100, dt=0.1]. *)
Definition predict_trajectory_default (pe : PhysicsEngine)
    (start_pos start_vel : Vector2D) (m : R) (gravity_sources : list GameObject)
    : list (R * R) :=
  predict_trajectory pe start_pos start_vel m gravity_sources 100 (1 / 10).

(** ** objects.py: [class Spaceship] *)

Record Spaceship := mkSpaceship {
  s_position : Vector2D;
  s_velocity : Vector2D;
  s_mass : R;
  s_radius : R;
  fuel : Z;
  max_fuel : Z;
  launched : bool;
  trail : list (R * R);
  max_trail_length : nat
}.

(** [Spaceship.__init__(x, y)]: mass 1.0, radius 8, fuel 100, not launched. *)
Definition new_spaceship (x y : R) : Spaceship :=
  mkSpaceship (mkVector2D x y) (mkVector2D 0 0) 1 8 100 100 false [] 50.

Definition set_motion (s : Spaceship) (pos vel : Vector2D) : Spaceship :=
  mkSpaceship pos vel (s_mass s) (s_radius s) (fuel s) (max_fuel s)
    (launched s) (trail s) (max_trail_length s).

(** [Spaceship.launch(velocity)] *)
Definition launch (s : Spaceship) (velocity : Vector2D) : Spaceship :=
  mkSpaceship (s_position s) velocity (s_mass s) (s_radius s) (fuel s)
    (max_fuel s) true [] (max_trail_length s).

(** [Spaceship.use_thruster(direction, power)] *)
Definition use_thruster (s : Spaceship) (direction : Vector2D) (power : R)
    : Spaceship :=
  if (0 <? fuel s)%Z && launched s then
    let thrust := vmul (normalize direction) power in
    mkSpaceship (s_position s) (vadd (s_velocity s) thrust) (s_mass s)
      (s_radius s) (fuel s - 5)%Z (max_fuel s) (launched s) (trail s)
      (max_trail_length s)
  else s.

(** [Spaceship.update(dt)]: the visual trail ([pop(0)] drops the oldest). *)
Definition spaceship_update (s : Spaceship) : Spaceship :=
  if launched s then
    let t := trail s ++ [(vx (s_position s), vy (s_position s))] in
    let t := if Nat.ltb (max_trail_length s) (length t) then tl t else t in
    mkSpaceship (s_position s) (s_velocity s) (s_mass s) (s_radius s) (fuel s)
      (max_fuel s) (launched s) t (max_trail_length s)
  else s.

(** [GameObject.collides_with] with the spaceship as [self]. *)
Definition collides_with (s : Spaceship) (other : GameObject) : bool :=
  let distance := magnitude (vsub (s_position s) (position other)) in
  Rltb distance (s_radius s + radius other).

(** ** level.py: the fields of [Level] the engine reads *)

Record Level := mkLevel {
  spaceship_start : Vector2D;
  objects : list GameObject;
  gravity_sources : list GameObject;
  goal : option GameObject;
  max_shots : Z;
  shots_used : Z
}.

Definition set_shots_used (l : Level) (n : Z) : Level :=
  mkLevel (spaceship_start l) (objects l) (gravity_sources l) (goal l)
    (max_shots l) n.

(** [isinstance(obj, type(self.current_level.goal)) and obj == self.current_level.goal] *)
Definition is_goal (l : Level) (o : GameObject) : bool :=
  match goal l with
  | Some g => Nat.eqb (obj_id o) (obj_id g)
  | None => false
  end.

(** ** engine.py: [class GameState] and the flight part of [GameEngine] *)

Inductive GameState := MENU | PLAYING | AIMING | FLYING | LEVEL_COMPLETE | GAME_OVER.

Record GameEngine := mkGameEngine {
  physics : PhysicsEngine;
  screen_width : R;
  screen_height : R;
  state : GameState;
  spaceship : option Spaceship;
  current_level : Level;
  mouse_pos : Vector2D;
  slingshot_base : Vector2D;
  max_slingshot_distance : R;
  aiming_active : bool;
  aim_power : R
}.

Definition set_state (e : GameEngine) (st : GameState) : GameEngine :=
  mkGameEngine (physics e) (screen_width e) (screen_height e) st (spaceship e)
    (current_level e) (mouse_pos e) (slingshot_base e) (max_slingshot_distance e)
    (aiming_active e) (aim_power e).

Definition set_spaceship (e : GameEngine) (s : option Spaceship) : GameEngine :=
  mkGameEngine (physics e) (screen_width e) (screen_height e) (state e) s
    (current_level e) (mouse_pos e) (slingshot_base e) (max_slingshot_distance e)
    (aiming_active e) (aim_power e).

Definition set_level (e : GameEngine) (l : Level) : GameEngine :=
  mkGameEngine (physics e) (screen_width e) (screen_height e) (state e)
    (spaceship e) l (mouse_pos e) (slingshot_base e) (max_slingshot_distance e)
    (aiming_active e) (aim_power e).

(** [launch_spaceship], lines 154-162: the pull vector, its length capped
    at [max_slingshot_distance], and the launch velocity computed from them. *)
Definition slingshot_vector (e : GameEngine) : Vector2D :=
  vsub (slingshot_base e) (mouse_pos e).

Definition slingshot_distance (e : GameEngine) : R :=
  Rmin (magnitude (slingshot_vector e)) (max_slingshot_distance e).

Definition launch_velocity (e : GameEngine) : Vector2D :=
  let launch_direction := normalize (slingshot_vector e) in
  let power_factor := slingshot_distance e / max_slingshot_distance e in
  vmul (vmul launch_direction power_factor) 350.

(** [launch_spaceship]: called on mouse release while aiming; the minimum
    pull threshold is [slingshot_distance > 10]. *)
Definition launch_spaceship (e : GameEngine) : GameEngine :=
  match spaceship e with
  | Some s =>
      if negb (launched s) then
        if Rltb 10 (slingshot_distance e) then
          let e1 := set_spaceship e (Some (launch s (launch_velocity e))) in
          let e2 := set_state e1 FLYING in
          let l := current_level e2 in
          set_level e2 (set_shots_used l (shots_used l + 1)%Z)
        else e
      else e
  | None => e
  end.

(** [reset_for_next_shot] *)
Definition reset_for_next_shot (e : GameEngine) : GameEngine :=
  let l := current_level e in
  if (max_shots l <=? shots_used l)%Z then set_state e GAME_OVER
  else
    let start_pos := spaceship_start l in
    set_state (set_spaceship e (Some (new_spaceship (vx start_pos) (vy start_pos))))
      AIMING.

(** The [for obj in self.current_level.objects] loop of [check_collisions]:
    the first object the spaceship collides with decides, then [break]. *)
Fixpoint collision_scan (s : Spaceship) (objs : list GameObject)
    (e : GameEngine) : GameEngine :=
  match objs with
  | [] => e
  | obj :: rest =>
      if collides_with s obj then
        if is_goal (current_level e) obj then set_state e LEVEL_COMPLETE
        else reset_for_next_shot e
      else collision_scan s rest e
  end.

(** [check_collisions] *)
Definition check_collisions (e : GameEngine) : GameEngine :=
  match spaceship e with
  | Some s =>
      if launched s then collision_scan s (objects (current_level e)) e else e
  | None => e
  end.

(** The off-screen test of [update_flying]. *)
Definition off_screen (e : GameEngine) (pos : Vector2D) : bool :=
  Rltb (vx pos) (-100) || Rltb (screen_width e + 100) (vx pos) ||
  Rltb (vy pos) (-100) || Rltb (screen_height e + 100) (vy pos).

(** [update_flying], lines 209-217: one integrator step on the spaceship
    with the level's gravity sources, then [self.spaceship.update(dt)]. *)
Definition advance_spaceship (pe : PhysicsEngine) (l : Level) (s : Spaceship)
    (dt : R) : Spaceship :=
  let '(pos', vel') :=
    update_object_physics pe (s_position s) (s_velocity s) (s_mass s)
      (gravity_sources l) dt in
  spaceship_update (set_motion s pos' vel').

(** [update_flying(dt)]; after [check_collisions] the off-screen test reads
    [self.spaceship], which [reset_for_next_shot] may have replaced. *)
Definition update_flying (e : GameEngine) (dt : R) : GameEngine :=
  match spaceship e with
  | Some s =>
      if launched s then
        let s1 := advance_spaceship (physics e) (current_level e) s dt in
        let e1 := check_collisions (set_spaceship e (Some s1)) in
        match spaceship e1 with
        | Some s2 => if off_screen e1 (s_position s2) then reset_for_next_shot e1 else e1
        | None => e1
        end
      else e
  | None => e
  end.

(** [update(dt)] restricted to the flight: the per-object [obj.update(dt)]
    calls that follow only animate visual fields (pulse timers, particles)
    and are left out. *)
Definition update_flight (e : GameEngine) (dt : R) : GameEngine :=
  match state e with
  | FLYING => update_flying e dt
  | _ => e
  end.

(** The object that decides [collision_scan]: the first object of the list,
    in list order, that the spaceship collides with. *)
Fixpoint first_collision (s : Spaceship) (objs : list GameObject)
    : option GameObject :=
  match objs with
  | [] => None
  | obj :: rest => if collides_with s obj then Some obj else first_collision s rest
  end.

(** [draw_trajectory_prediction]: the preview the engine computes while
    aiming ([None] when it draws nothing). *)
Definition draw_trajectory_prediction (e : GameEngine) : option (list (R * R)) :=
  match spaceship e with
  | Some s =>
      if Rltb 0 (magnitude (s_velocity s)) then
        Some (predict_trajectory (physics e) (s_position s) (s_velocity s)
                (s_mass s) (gravity_sources (current_level e)) 60 (15 / 100))
      else None
  | None => None
  end.

(** The box inside which [predict_trajectory] keeps recording samples. *)
Definition in_predict_box (p : R * R) : Prop :=
  -500 <= fst p <= 1500 /\ -500 <= snd p <= 1200.

(** ** engine.py: aiming, mouse release and the thrust keys *)

Definition set_mouse_pos (e : GameEngine) (m : Vector2D) : GameEngine :=
  mkGameEngine (physics e) (screen_width e) (screen_height e) (state e)
    (spaceship e) (current_level e) m (slingshot_base e)
    (max_slingshot_distance e) (aiming_active e) (aim_power e).

Definition set_aiming_active (e : GameEngine) (b : bool) : GameEngine :=
  mkGameEngine (physics e) (screen_width e) (screen_height e) (state e)
    (spaceship e) (current_level e) (mouse_pos e) (slingshot_base e)
    (max_slingshot_distance e) b (aim_power e).

Definition set_aim_power (e : GameEngine) (p : R) : GameEngine :=
  mkGameEngine (physics e) (screen_width e) (screen_height e) (state e)
    (spaceship e) (current_level e) (mouse_pos e) (slingshot_base e)
    (max_slingshot_distance e) (aiming_active e) p.

Definition set_velocity (s : Spaceship) (v : Vector2D) : Spaceship :=
  set_motion s (s_position s) v.

(** [update_aiming]: the pull and its power are read before the mouse is
    pulled back onto the circle of radius [max_slingshot_distance]. *)
Definition update_aiming (e : GameEngine) : GameEngine :=
  if aiming_active e then
    match spaceship e with
    | Some s =>
        let sv := slingshot_vector e in
        let d := slingshot_distance e in
        let e1 :=
          if Rltb (max_slingshot_distance e) (magnitude sv) then
            let constrained_direction := normalize sv in
            set_mouse_pos e (vsub (slingshot_base e)
                               (vmul constrained_direction (max_slingshot_distance e)))
          else e in
        if Rltb 10 d then
          let launch_direction := normalize sv in
          let power_factor := d / max_slingshot_distance e in
          let predicted_velocity := vmul (vmul launch_direction power_factor) 350 in
          set_aim_power (set_spaceship e1 (Some (set_velocity s predicted_velocity)))
            (power_factor * 3)
        else set_aim_power (set_spaceship e1 (Some (set_velocity s (mkVector2D 0 0)))) 0
    | None => e
    end
  else e.

(** [update(dt)] on the game state (the visual [obj.update(dt)] loop left out). *)
Definition update_game (e : GameEngine) (dt : R) : GameEngine :=
  match state e with
  | AIMING => update_aiming e
  | FLYING => update_flying e dt
  | _ => e
  end.

(** [handle_mouse_up] ([mouse_pressed] only feeds drawing and is left out). *)
Definition handle_mouse_up (e : GameEngine) : GameEngine :=
  match state e with
  | AIMING =>
      if aiming_active e then launch_spaceship (set_aiming_active e false) else e
  | _ => e
  end.

(** [handle_key_press(K_SPACE)]: thrust 30 along the velocity, or along
    (1, 0) when the craft is at rest. *)
Definition handle_key_space (e : GameEngine) : GameEngine :=
  match state e, spaceship e with
  | FLYING, Some s =>
      if (0 <? fuel s)%Z then
        let thrust_dir :=
          if Rltb 0 (magnitude (s_velocity s)) then normalize (s_velocity s)
          else mkVector2D 1 0 in
        set_spaceship e (Some (use_thruster s thrust_dir 30))
      else e
  | _, _ => e
  end.

(** [handle_key_press(K_LSHIFT / K_RSHIFT)]: thrust 25 against the velocity. *)
Definition handle_key_shift (e : GameEngine) : GameEngine :=
  match state e, spaceship e with
  | FLYING, Some s =>
      if (0 <? fuel s)%Z then
        if Rltb 0 (magnitude (s_velocity s)) then
          let brake_dir := vmul (normalize (s_velocity s)) (-1) in
          set_spaceship e (Some (use_thruster s brake_dir 25))
        else e
      else e
  | _, _ => e
  end.

(** [handle_mouse_down] ([mouse_pressed] only feeds drawing and is left out). *)
Definition handle_mouse_down (e : GameEngine) : GameEngine :=
  match state e, spaceship e with
  | AIMING, Some s =>
      let mouse_to_ship := vsub (mouse_pos e) (s_position s) in
      if Rltb (magnitude mouse_to_ship) 50 then
        mkGameEngine (physics e) (screen_width e) (screen_height e) (state e)
          (spaceship e) (current_level e) (mouse_pos e)
          (mkVector2D (vx (s_position s)) (vy (s_position s)))
          (max_slingshot_distance e) true (aim_power e)
      else e
  | _, _ => e
  end.

(** The events of [handle_events] and the ticks of the main loop that act
    on a level in progress: [MOUSEMOTION] stores the pointer. *)
Inductive Input :=
  | MouseDown | MouseUp | MouseMove (p : Vector2D) | Tick (dt : R)
  | KeySpace | KeyShift.

Definition step_input (e : GameEngine) (i : Input) : GameEngine :=
  match i with
  | MouseDown => handle_mouse_down e
  | MouseUp => handle_mouse_up e
  | MouseMove p => set_mouse_pos e p
  | Tick dt => update_game e dt
  | KeySpace => handle_key_space e
  | KeyShift => handle_key_shift e
  end.

Definition run_inputs (e : GameEngine) (is : list Input) : GameEngine :=
  fold_left step_input is e.

(** ** objects.py: the level object constructors *)

Definition Color := (R * R * R)%type.

(** [Planet.calculate_color_based_mass] *)
Definition calculate_color_based_mass (base_mass : R) (color : Color) : R :=
  let '(r, g, b) := color in
  if Rltb 150 r && Rltb g 100 && Rltb b 100 then base_mass * 2
  else if Rltb 150 b && Rltb r 100 && Rltb g 100 then base_mass * 1
  else if Rltb 150 g && Rltb r 100 && Rltb b 100 then base_mass * (7 / 10)
  else if Rltb 150 r && Rltb 150 g && Rltb b 100 then base_mass * (15 / 10)
  else if Rltb 100 r && Rltb g 100 && Rltb 100 b then base_mass * (25 / 10)
  else if Rltb 150 r && Rltb 150 g && Rltb 150 b then base_mass * (12 / 10)
  else base_mass * 1.

Section ColorType.
Local Open Scope string_scope.

(** [Planet.determine_color_type] *)
Definition determine_color_type (color : Color) : String.string :=
  let '(r, g, b) := color in
  if Rltb 150 r && Rltb g 100 && Rltb b 100 then "Heavy (Red)"
  else if Rltb 150 b && Rltb r 100 && Rltb g 100 then "Normal (Blue)"
  else if Rltb 150 g && Rltb r 100 && Rltb b 100 then "Light (Green)"
  else if Rltb 150 r && Rltb 150 g && Rltb b 100 then "Variable (Yellow)"
  else if Rltb 100 r && Rltb g 100 && Rltb 100 b then "Super Heavy (Purple)"
  else if Rltb 150 r && Rltb 150 g && Rltb 150 b then "Moderate (White)"
  else "Standard".

(** The multiplier each label stands for, as the comments of
    [calculate_color_based_mass] name them. *)
Definition color_type_multiplier (label : String.string) : R :=
  if String.eqb label "Heavy (Red)" then 2
  else if String.eqb label "Light (Green)" then 7 / 10
  else if String.eqb label "Variable (Yellow)" then 15 / 10
  else if String.eqb label "Super Heavy (Purple)" then 25 / 10
  else if String.eqb label "Moderate (White)" then 12 / 10
  else 1.

End ColorType.

(** [Planet(x, y, mass, radius, color)]; [obj_id] is the identity the
    loader gives the new object. *)
Definition new_planet (id : nat) (x y base_mass radius : R) (color : Color)
    : GameObject :=
  mkGameObject id KPlanet (mkVector2D x y)
    (calculate_color_based_mass base_mass color) radius false.

(** [BlackHole(x, y, mass)]: radius 15. *)
Definition new_black_hole (id : nat) (x y m : R) : GameObject :=
  mkGameObject id KBlackHole (mkVector2D x y) m 15 false.

(** [AntiGravityWell(x, y, mass)]: radius 20, [anti_gravity = True]. *)
Definition new_anti_gravity_well (id : nat) (x y m : R) : GameObject :=
  mkGameObject id KAntiGravityWell (mkVector2D x y) m 20 true.

(** [Goal(x, y)]: mass 0, radius 25. *)
Definition new_goal (id : nat) (x y : R) : GameObject :=
  mkGameObject id KGoal (mkVector2D x y) 0 25 false.

(** [Obstacle(x, y, radius)]: mass 0. *)
Definition new_obstacle (id : nat) (x y radius : R) : GameObject :=
  mkGameObject id KObstacle (mkVector2D x y) 0 radius false.

(** [source.anti_gravity] flipped; used to compare attracting and
    repelling sources. *)
Definition toggle_anti_gravity (o : GameObject) : GameObject :=
  mkGameObject (obj_id o) (kind o) (position o) (mass o) (radius o)
    (negb (anti_gravity o)).

(** The contribution of one source inside [calculate_total_gravity]. *)
Definition source_force (pe : PhysicsEngine) (pos : Vector2D) (m : R)
    (source : GameObject) : Vector2D :=
  let force := calculate_gravity_force pe pos m (position source) (mass source) in
  if anti_gravity source then vmul force (-1) else force.

(** [n] calls of [update_object_physics] in a row on the same sources. *)
Fixpoint physics_iter (pe : PhysicsEngine) (m : R)
    (gravity_sources : list GameObject) (dt : R) (n : nat)
    (pos vel : Vector2D) : Vector2D * Vector2D :=
  match n with
  | O => (pos, vel)
  | S n' =>
      let '(pos', vel') := update_object_physics pe pos vel m gravity_sources dt in
      physics_iter pe m gravity_sources dt n' pos' vel'
  end.

(** ** level.py: loading a level from its JSON data *)

(** [dict.get(key, default)] on a key that may be absent. *)
Definition get {A : Type} (o : option A) (default : A) : A :=
  match o with
  | Some a => a
  | None => default
  end.

(** One entry of the ["objects"] list of a level file. *)
Record ObjData := mkObjData {
  d_type : option String.string;
  d_x : option R;
  d_y : option R;
  d_mass : option R;
  d_radius : option R;
  d_color : option Color
}.

(** One level file; [spaceship_start] is the ["x"], ["y"] dictionary. *)
Record LevelData := mkLevelData {
  ld_max_shots : option Z;
  ld_spaceship_start : option Vector2D;
  ld_objects : option (list ObjData)
}.

Section LevelLoading.
Local Open Scope string_scope.

(** [Level.create_object_from_data]; [id] is the identity of the new object. *)
Definition create_object_from_data (id : nat) (obj_data : ObjData)
    : option GameObject :=
  let x := get (d_x obj_data) 0 in
  let y := get (d_y obj_data) 0 in
  match d_type obj_data with
  | Some obj_type =>
      if String.eqb obj_type "planet" then
        Some (new_planet id x y (get (d_mass obj_data) 100)
                (get (d_radius obj_data) 30) (get (d_color obj_data) (100, 100, 200)))
      else if String.eqb obj_type "black_hole" then
        Some (new_black_hole id x y (get (d_mass obj_data) 200))
      else if String.eqb obj_type "anti_gravity" then
        Some (new_anti_gravity_well id x y (get (d_mass obj_data) 50))
      else if String.eqb obj_type "goal" then Some (new_goal id x y)
      else if String.eqb obj_type "obstacle" then
        Some (new_obstacle id x y (get (d_radius obj_data) 15))
      else None
  | None => None
  end.

(** The five type names the loader knows. *)
Definition known_types : list String.string :=
  ["planet"; "black_hole"; "anti_gravity"; "goal"; "obstacle"].

End LevelLoading.

(** One iteration of the [for obj_data in data.get("objects", [])] loop of
    [Level.load_from_data]: next identity, [objects], [gravity_sources] and
    [goal]. *)
Definition load_step
    (acc : nat * list GameObject * list GameObject * option GameObject)
    (obj_data : ObjData)
    : nat * list GameObject * list GameObject * option GameObject :=
  let '(i, objs, srcs, g) := acc in
  match create_object_from_data i obj_data with
  | Some obj =>
      let srcs' := if Rltb 0 (mass obj) then srcs ++ [obj] else srcs in
      let g' := match kind obj with KGoal => Some obj | _ => g end in
      (S i, objs ++ [obj], srcs', g')
  | None => (S i, objs, srcs, g)
  end.

(** [Level(level_data)]: [__init__] sets [goal = None] and [shots_used = 0],
    then [load_from_data] reads the file. *)
Definition level_of_data (data : LevelData) : Level :=
  let '(_, objs, srcs, g) :=
    fold_left load_step (get (ld_objects data) []) (0%nat, [], [], None) in
  mkLevel (get (ld_spaceship_start data) (mkVector2D 100 300)) objs srcs g
    (get (ld_max_shots data) 3%Z) 0%Z.

(** The objects [create_object_from_data] builds from a list of entries,
    the [k]-th entry getting identity [i + k]. *)
Fixpoint created_objects (i : nat) (ds : list ObjData) : list GameObject :=
  match ds with
  | [] => []
  | d :: ds' =>
      match create_object_from_data i d with
      | Some o => o :: created_objects (S i) ds'
      | None => created_objects (S i) ds'
      end
  end.

(** The last goal of a list of objects. *)
Fixpoint last_goal (objs : list GameObject) : option GameObject :=
  match objs with
  | [] => None
  | o :: rest =>
      match last_goal rest with
      | Some g => Some g
      | None => match kind o with KGoal => Some o | _ => None end
      end
  end.


(** ** level.py: [class LevelManager] *)

Record LevelManager := mkLevelManager {
  levels : list Level;
  current_level_index : Z
}.

Section Tutorial.
Local Open Scope string_scope.

(** The dictionary [LevelManager.create_tutorial_level] builds its level from. *)
Definition tutorial_data : LevelData :=
  mkLevelData (Some 5%Z) (Some (mkVector2D 100 300))
    (Some [mkObjData (Some "planet") (Some 400) (Some 300) (Some 80) (Some 25) None;
           mkObjData (Some "goal") (Some 700) (Some 300) None None None]).

End Tutorial.

(** [LevelManager.create_tutorial_level] *)
Definition create_tutorial_level : Level := level_of_data tutorial_data.

(** The end of [load_all_levels]: at least one level. *)
Definition ensure_levels (loaded : list Level) : list Level :=
  match loaded with
  | [] => [create_tutorial_level]
  | _ => loaded
  end.

(** [LevelManager.__init__] after [load_all_levels]. *)
Definition new_level_manager (loaded : list Level) : LevelManager :=
  mkLevelManager (ensure_levels loaded) 0%Z.

(** [LevelManager.get_current_level] *)
Definition get_current_level (lm : LevelManager) : option Level :=
  let idx := current_level_index lm in
  if (0 <=? idx)%Z && (idx <? Z.of_nat (length (levels lm)))%Z then
    nth_error (levels lm) (Z.to_nat idx)
  else None.

(** [LevelManager.next_level]: the returned flag and the updated manager. *)
Definition next_level (lm : LevelManager) : bool * LevelManager :=
  let idx := current_level_index lm in
  if (idx <? Z.of_nat (length (levels lm)) - 1)%Z then
    (true, mkLevelManager (levels lm) (idx + 1)%Z)
  else (false, lm).

(** [LevelManager.previous_level] *)
Definition previous_level (lm : LevelManager) : bool * LevelManager :=
  let idx := current_level_index lm in
  if (0 <? idx)%Z then (true, mkLevelManager (levels lm) (idx - 1)%Z)
  else (false, lm).

(** The [K_n] and [K_p] keys on the level manager. *)
Definition navigate (lm : LevelManager) (forward : bool) : LevelManager :=
  snd (if forward then next_level lm else previous_level lm).

(** ** engine.py: the level keys, on the engine and its level manager *)









(** The shot budget of a level in progress with [M] shots: at most [M]
    shots used; aiming only with a shot left and a spaceship not launched
    yet; in flight only with a launched spaceship; game over only with the
    budget spent. *)
Definition shot_budget_ok (M : Z) (e : GameEngine) : Prop :=
  let l := current_level e in
  max_shots l = M /\ (0 <= shots_used l <= M)%Z
  /\ (state e = AIMING ->
      (shots_used l < M)%Z /\ exists s, spaceship e = Some s /\ launched s = false)
  /\ (state e = FLYING -> exists s, spaceship e = Some s /\ launched s = true)
  /\ (state e = GAME_OVER -> shots_used l = M).

(** ** Concrete levels used below *)

(** An obstacle listed before the goal, both centred at (200, 300). *)
Definition ex_obstacle : GameObject :=
  mkGameObject 1 KObstacle (mkVector2D 200 300) 0 15 false.

Definition ex_goal : GameObject :=
  mkGameObject 2 KGoal (mkVector2D 200 300) 0 25 false.

Definition ex_overlap_level : Level :=
  mkLevel (mkVector2D 100 300) [ex_obstacle; ex_goal] [] (Some ex_goal) 3 1.

(** A launched spaceship at rest on top of both objects. *)
Definition ex_overlap_ship : Spaceship :=
  launch (new_spaceship 200 300) (mkVector2D 0 0).

Definition ex_overlap_engine : GameEngine :=
  mkGameEngine default_physics 1024 768 FLYING (Some ex_overlap_ship)
    ex_overlap_level (mkVector2D 0 0) (mkVector2D 0 0) 120 false 0.

(** A one-shot level whose start lies inside an obstacle of radius 40. *)
Definition ex_rock : GameObject :=
  mkGameObject 1 KObstacle (mkVector2D 100 300) 0 40 false.

Definition ex_one_shot_level : Level :=
  mkLevel (mkVector2D 100 300) [ex_rock] [] None 1 0.

(** Aiming with the slingshot pulled from [base] to [mouse]. *)
Definition ex_aiming_engine (l : Level) (base mouse : Vector2D) : GameEngine :=
  mkGameEngine default_physics 1024 768 AIMING
    (Some (new_spaceship (vx (spaceship_start l)) (vy (spaceship_start l))))
    l mouse base 120 true 0.

(** In flight at velocity [v] on [ex_one_shot_level]. *)
Definition ex_flying_engine (v : Vector2D) : GameEngine :=
  mkGameEngine default_physics 1024 768 FLYING
    (Some (launch (new_spaceship 100 300) v))
    ex_one_shot_level (mkVector2D 0 0) (mkVector2D 0 0) 120 false 0.


(** ** Basic facts *)

Lemma Rltb_true (x y : R) : Rltb x y = true <-> x < y.
Proof. unfold Rltb; destruct (Rlt_dec x y); split; congruence || tauto. Qed.

Lemma Rltb_false (x y : R) : Rltb x y = false <-> ~ x < y.
Proof. unfold Rltb; destruct (Rlt_dec x y); split; congruence || tauto. Qed.

Lemma predict_out_of_bounds_false (pos : Vector2D) :
  predict_out_of_bounds pos = false ->
  -500 <= vx pos <= 1500 /\ -500 <= vy pos <= 1200.
Proof.
  unfold predict_out_of_bounds; intro H.
  repeat rewrite orb_false_iff in H.
  destruct H as [[[H1 H2] H3] H4].
  apply Rltb_false in H1, H2, H3, H4; lra.
Qed.

Lemma predict_out_of_bounds_in (pos : Vector2D) :
  -500 <= vx pos <= 1500 -> -500 <= vy pos <= 1200 ->
  predict_out_of_bounds pos = false.
Proof.
  intros Hx Hy; unfold predict_out_of_bounds.
  repeat rewrite orb_false_iff.
  repeat split; apply Rltb_false; lra.
Qed.

Lemma calculate_total_gravity_nil (pe : PhysicsEngine) (pos : Vector2D) (m : R) :
  calculate_total_gravity pe pos m [] = mkVector2D 0 0.
Proof. reflexivity. Qed.

Lemma predict_loop_length (pe : PhysicsEngine) (m : R) (src : list GameObject)
    (dt : R) (n : nat) :
  forall pos vel, (length (predict_loop pe m src dt n pos vel) <= n)%nat.
Proof.
  induction n as [|n IH]; intros pos vel; simpl; [lia|].
  destruct (predict_out_of_bounds _); simpl; [lia|].
  specialize (IH (vadd pos (vmul (vadd vel (vmul (vdiv
    (calculate_total_gravity pe pos m src) m) dt)) dt))
    (vadd vel (vmul (vdiv (calculate_total_gravity pe pos m src) m) dt))).
  lia.
Qed.

Lemma predict_loop_tail_in_box (pe : PhysicsEngine) (m : R)
    (src : list GameObject) (dt : R) (n : nat) :
  forall pos vel, Forall in_predict_box (tl (predict_loop pe m src dt n pos vel)).
Proof.
  induction n as [|n IH]; intros pos vel; simpl; [constructor|].
  destruct (predict_out_of_bounds _) eqn:Hb; [constructor|].
  apply predict_out_of_bounds_false in Hb.
  destruct n as [|n]; simpl; [constructor|].
  constructor; [unfold in_predict_box; simpl; exact Hb|].
  specialize (IH (vadd pos (vmul (vadd vel (vmul (vdiv
    (calculate_total_gravity pe pos m src) m) dt)) dt))
    (vadd vel (vmul (vdiv (calculate_total_gravity pe pos m src) m) dt))).
  simpl in IH; exact IH.
Qed.

(** Without sources and at rest, the craft stays put and the loop runs to
    its cap. *)
Lemma predict_loop_at_rest_length (pe : PhysicsEngine) (m dt : R) (n : nat) :
  forall pos vel, vx vel = 0 -> vy vel = 0 ->
  -500 <= vx pos <= 1500 -> -500 <= vy pos <= 1200 ->
  length (predict_loop pe m [] dt n pos vel) = n.
Proof.
  induction n as [|n IH]; intros pos vel Hvx Hvy Hx Hy; [reflexivity|].
  cbn [predict_loop]; rewrite calculate_total_gravity_nil.
  assert (Ex : vx vel + 0 / m * dt = 0) by (rewrite Hvx; unfold Rdiv; ring).
  assert (Ey : vy vel + 0 / m * dt = 0) by (rewrite Hvy; unfold Rdiv; ring).
  rewrite predict_out_of_bounds_in; cbn [vx vy vadd vmul vdiv];
    rewrite ?Ex, ?Ey; try lra.
  cbn [length]; f_equal; apply IH; cbn [vx vy vadd vmul vdiv];
    rewrite ?Ex, ?Ey; lra.
Qed.

(** ** Trajectory Predictor *)

(** C4 (counterexample): called with its default arguments, the predictor
    is capped at 100 steps, not 60: a craft at rest at the origin with no
    source yields 100 samples. *)
Lemma predict_default_cap_not_60 :
  length (predict_trajectory_default default_physics (mkVector2D 0 0)
            (mkVector2D 0 0) 1 []) = 100%nat.
Proof.
  unfold predict_trajectory_default, predict_trajectory.
  apply predict_loop_at_rest_length; simpl; lra.
Qed.

(** C4 (amended): a call without an explicit step count returns at most 100
    samples (the default [steps=100]); the engine's preview call passes
    [steps=60] and returns at most 60. *)
Theorem predict_default_cap_100 :
  forall pe start_pos start_vel m src,
    (length (predict_trajectory_default pe start_pos start_vel m src) <= 100)%nat
  /\ forall e, match draw_trajectory_prediction e with
                | Some traj => (length traj <= 60)%nat
                | None => True
                end.
Proof.
  intros pe sp sv m src; split.
  - apply predict_loop_length.
  - intros e; unfold draw_trajectory_prediction.
    destruct (spaceship e) as [s|]; [|exact I].
    destruct (Rltb 0 _); [apply predict_loop_length | exact I].
Qed.

(** C8: for [steps >= 1] the predicted sequence is non-empty, has at most
    [steps] samples and starts with the start position; calls whose inputs
    carry the same coordinates return the same sequence. *)
Theorem predict_trajectory_first_sample :
  forall pe start_pos start_vel m src steps dt,
    (1 <= steps)%Z ->
    let traj := predict_trajectory pe start_pos start_vel m src steps dt in
    traj <> []
    /\ (length traj <= Z.to_nat steps)%nat
    /\ hd_error traj = Some (vx start_pos, vy start_pos)
    /\ forall start_pos' start_vel',
         vx start_pos' = vx start_pos -> vy start_pos' = vy start_pos ->
         vx start_vel' = vx start_vel -> vy start_vel' = vy start_vel ->
         predict_trajectory pe start_pos' start_vel' m src steps dt = traj.
Proof.
  intros pe sp sv m src steps dt Hs traj.
  assert (Hn : Z.to_nat steps = S (Nat.pred (Z.to_nat steps))) by lia.
  split; [|split; [|split]].
  - unfold traj, predict_trajectory; rewrite Hn; simpl; discriminate.
  - apply predict_loop_length.
  - unfold traj, predict_trajectory; rewrite Hn; reflexivity.
  - intros sp' sv' H1 H2 H3 H4; unfold traj, predict_trajectory.
    rewrite H1, H2, H3, H4; reflexivity.
Qed.

Lemma predict_trajectory_first_sample_witness :
  (1 <= 3)%Z /\
  hd_error (predict_trajectory default_physics (mkVector2D 100 300)
              (mkVector2D 50 0) 1 [] 3 (1 / 10)) = Some (100, 300).
Proof.
  split; [lia|].
  apply (predict_trajectory_first_sample default_physics (mkVector2D 100 300)
           (mkVector2D 50 0) 1 [] 3 (1 / 10)); lia.
Defined.

(** C10: every sample after the first lies in the box
    [-500 <= x <= 1500], [-500 <= y <= 1200]. *)
Theorem predict_trajectory_tail_in_bounds :
  forall pe start_pos start_vel m src steps dt,
    Forall in_predict_box
      (tl (predict_trajectory pe start_pos start_vel m src steps dt)).
Proof. intros; apply predict_loop_tail_in_box. Qed.

(** ** Force Model *)

(** C5: the pairwise force is the zero vector when the distance is below 5
    or above the maximum interaction distance (500 for the default engine). *)
Theorem gravity_force_zero_out_of_range :
  forall pe obj1_pos obj1_mass obj2_pos obj2_mass,
    let distance := magnitude (vsub obj2_pos obj1_pos) in
    distance < 5 \/ max_gravity_distance pe < distance ->
    calculate_gravity_force pe obj1_pos obj1_mass obj2_pos obj2_mass
      = mkVector2D 0 0.
Proof.
  intros pe p1 m1 p2 m2 distance H; unfold calculate_gravity_force.
  fold distance.
  destruct (Rltb distance 5) eqn:E1; [reflexivity|].
  apply Rltb_false in E1.
  destruct H as [H|H]; [contradiction|].
  apply Rltb_true in H; rewrite H; reflexivity.
Qed.

Lemma magnitude_zero : magnitude (mkVector2D 0 0) = 0.
Proof.
  unfold magnitude; simpl vx; simpl vy.
  replace (0 ^ 2 + 0 ^ 2) with 0 by ring; apply sqrt_0.
Qed.

Lemma gravity_force_zero_out_of_range_witness :
  (magnitude (vsub (mkVector2D 100 300) (mkVector2D 100 300)) < 5
   \/ max_gravity_distance default_physics
      < magnitude (vsub (mkVector2D 100 300) (mkVector2D 100 300)))
  /\ max_gravity_distance default_physics = 500
  /\ calculate_gravity_force default_physics (mkVector2D 100 300) 1
       (mkVector2D 100 300) 1000 = mkVector2D 0 0.
Proof.
  assert (H : magnitude (vsub (mkVector2D 100 300) (mkVector2D 100 300)) < 5).
  { unfold vsub; simpl vx; simpl vy.
    replace (100 - 100) with 0 by ring; replace (300 - 300) with 0 by ring.
    rewrite magnitude_zero; lra. }
  split; [left; exact H | split; [reflexivity|]].
  apply (gravity_force_zero_out_of_range default_physics (mkVector2D 100 300) 1
           (mkVector2D 100 300) 1000).
  left; exact H.
Defined.

(** ** Integrator *)

(** C7: one step updates the velocity from the aggregate force first and
    the position with the updated velocity; with no source the velocity is
    unchanged and the position advances by exactly [v * dt]. *)
Theorem update_object_physics_semi_implicit :
  forall pe pos vel m src dt,
    let '(pos', vel') := update_object_physics pe pos vel m src dt in
    vel' = vadd vel (vmul (vdiv (calculate_total_gravity pe pos m src) m) dt)
    /\ pos' = vadd pos (vmul vel' dt)
    /\ update_object_physics pe pos vel m [] dt = (vadd pos (vmul vel dt), vel).
Proof.
  intros pe pos vel m src dt; simpl.
  split; [reflexivity | split; [reflexivity|]].
  unfold update_object_physics; rewrite calculate_total_gravity_nil.
  destruct vel as [x y]; unfold vadd, vmul, vdiv; simpl.
  f_equal; f_equal; f_equal; unfold Rdiv; ring.
Qed.

(** ** Thruster *)

(** C9: [use_thruster] does nothing when the fuel is [<= 0] or the craft is
    not launched; otherwise it adds [normalize direction * power] to the
    velocity, takes 5 units of fuel and keeps the position. *)
Theorem use_thruster_spec :
  forall s direction power,
    ((fuel s <= 0)%Z \/ launched s = false ->
       use_thruster s direction power = s)
    /\ ((0 < fuel s)%Z -> launched s = true ->
       s_velocity (use_thruster s direction power)
         = vadd (s_velocity s) (vmul (normalize direction) power)
       /\ fuel (use_thruster s direction power) = (fuel s - 5)%Z
       /\ s_position (use_thruster s direction power) = s_position s).
Proof.
  intros s d p; unfold use_thruster; split.
  - intros [H|H].
    + replace (0 <? fuel s)%Z with false by (symmetry; apply Z.ltb_ge; lia).
      reflexivity.
    + rewrite H, andb_false_r; reflexivity.
  - intros H1 H2.
    replace (0 <? fuel s)%Z with true by (symmetry; apply Z.ltb_lt; lia).
    rewrite H2; simpl; auto.
Qed.

Lemma use_thruster_spec_witness :
  let s := launch (new_spaceship 100 300) (mkVector2D 50 0) in
  (0 < fuel s)%Z /\ launched s = true
  /\ fuel (use_thruster s (mkVector2D 1 0) 30) = 95%Z
  /\ use_thruster (new_spaceship 100 300) (mkVector2D 1 0) 30
     = new_spaceship 100 300.
Proof.
  intro s; split; [reflexivity | split; [reflexivity | split]].
  - apply (use_thruster_spec s (mkVector2D 1 0) 30); reflexivity.
  - apply (use_thruster_spec (new_spaceship 100 300) (mkVector2D 1 0) 30).
    right; reflexivity.
Defined.

(** ** Force magnitude *)

Lemma magnitude_vmul (v : Vector2D) (k : R) :
  magnitude (vmul v k) = Rabs k * magnitude v.
Proof.
  unfold magnitude, vmul; simpl vx; simpl vy.
  replace ((vx v * k) ^ 2 + (vy v * k) ^ 2) with (k ^ 2 * (vx v ^ 2 + vy v ^ 2))
    by ring.
  rewrite sqrt_mult_alt by nra.
  rewrite <- Rsqr_pow2, sqrt_Rsqr_abs; reflexivity.
Qed.

Lemma magnitude_normalize (v : Vector2D) :
  0 < magnitude v -> magnitude (normalize v) = 1.
Proof.
  intro H; unfold normalize.
  replace (Rltb 0 (magnitude v)) with true by (symmetry; apply Rltb_true; exact H).
  change (mkVector2D (vx v / magnitude v) (vy v / magnitude v))
    with (vmul v (/ magnitude v)).
  rewrite magnitude_vmul, Rabs_pos_eq.
  - field; lra.
  - apply Rlt_le, Rinv_0_lt_compat; exact H.
Qed.

Lemma gravity_force_in_range (pe : PhysicsEngine) (p1 : Vector2D) (m1 : R)
    (p2 : Vector2D) (m2 : R) :
  5 <= magnitude (vsub p2 p1) <= max_gravity_distance pe ->
  calculate_gravity_force pe p1 m1 p2 m2
    = vmul (normalize (vsub p2 p1))
        (gravity_constant pe * m1 * m2 / magnitude (vsub p2 p1) ^ 2).
Proof.
  intros [H1 H2]; unfold calculate_gravity_force.
  replace (Rltb (magnitude (vsub p2 p1)) 5) with false
    by (symmetry; apply Rltb_false; lra).
  replace (Rltb (max_gravity_distance pe) (magnitude (vsub p2 p1))) with false
    by (symmetry; apply Rltb_false; lra).
  reflexivity.
Qed.

Lemma gravity_force_magnitude_in_range (pe : PhysicsEngine) (p1 : Vector2D)
    (m1 : R) (p2 : Vector2D) (m2 : R) :
  0 < gravity_constant pe -> 0 < m1 -> 0 < m2 ->
  5 <= magnitude (vsub p2 p1) <= max_gravity_distance pe ->
  magnitude (calculate_gravity_force pe p1 m1 p2 m2)
    = gravity_constant pe * m1 * m2 / magnitude (vsub p2 p1) ^ 2.
Proof.
  intros HG H1 H2 Hd.
  rewrite gravity_force_in_range by exact Hd.
  rewrite magnitude_vmul, magnitude_normalize by lra.
  rewrite Rabs_pos_eq; [ring|].
  apply Rlt_le; unfold Rdiv; apply Rmult_lt_0_compat.
  - apply Rmult_lt_0_compat; [apply Rmult_lt_0_compat|]; assumption.
  - apply Rinv_0_lt_compat; nra.
Qed.

Lemma gravity_force_scale_mass1 (pe : PhysicsEngine) (p1 : Vector2D) (m1 : R)
    (p2 : Vector2D) (m2 k : R) :
  calculate_gravity_force pe p1 (k * m1) p2 m2
    = vmul (calculate_gravity_force pe p1 m1 p2 m2) k.
Proof.
  unfold calculate_gravity_force, vmul.
  destruct (Rltb _ 5); [simpl; f_equal; ring|].
  destruct (Rltb _ _); simpl; f_equal; unfold Rdiv; ring.
Qed.

Lemma gravity_force_scale_mass2 (pe : PhysicsEngine) (p1 : Vector2D) (m1 : R)
    (p2 : Vector2D) (m2 k : R) :
  calculate_gravity_force pe p1 m1 p2 (k * m2)
    = vmul (calculate_gravity_force pe p1 m1 p2 m2) k.
Proof.
  unfold calculate_gravity_force, vmul.
  destruct (Rltb _ 5); [simpl; f_equal; ring|].
  destruct (Rltb _ _); simpl; f_equal; unfold Rdiv; ring.
Qed.

Lemma magnitude_axis (a : R) : 0 <= a -> magnitude (mkVector2D a 0) = a.
Proof.
  intro H; unfold magnitude; simpl vx; simpl vy.
  replace (a ^ 2 + 0 ^ 2) with (a ^ 2) by ring; apply sqrt_pow2; exact H.
Qed.

(** C6: between 5 and the maximum distance, the force magnitude is
    [G * sourceMass * bodyMass / d^2]; it strictly decreases with the
    distance over that range, and doubling either mass doubles it.  In
    [calculate_total_gravity] the body is [obj1] and the source [obj2]. *)
Theorem gravity_force_inverse_square :
  forall pe body_pos body_mass source_pos source_mass,
    0 < gravity_constant pe -> 0 < body_mass -> 0 < source_mass ->
    let d := magnitude (vsub source_pos body_pos) in
    5 <= d <= max_gravity_distance pe ->
    let F := calculate_gravity_force pe body_pos body_mass source_pos source_mass in
    magnitude F = gravity_constant pe * source_mass * body_mass / d ^ 2
    /\ (forall body_pos' source_pos',
          let d' := magnitude (vsub source_pos' body_pos') in
          5 <= d' <= max_gravity_distance pe -> d < d' ->
          magnitude (calculate_gravity_force pe body_pos' body_mass
                       source_pos' source_mass) < magnitude F)
    /\ magnitude (calculate_gravity_force pe body_pos (2 * body_mass)
                    source_pos source_mass) = 2 * magnitude F
    /\ magnitude (calculate_gravity_force pe body_pos body_mass
                    source_pos (2 * source_mass)) = 2 * magnitude F.
Proof.
  intros pe bp bm sp sm HG Hb Hs d Hd F.
  assert (HF : magnitude F = gravity_constant pe * bm * sm / d ^ 2)
    by (apply gravity_force_magnitude_in_range; assumption).
  split; [rewrite HF; unfold Rdiv; ring|].
  split; [|split].
  - intros bp' sp' d' Hd' Hlt.
    rewrite gravity_force_magnitude_in_range by assumption.
    fold d'; rewrite HF; unfold Rdiv.
    apply Rmult_lt_compat_l.
    + apply Rmult_lt_0_compat; [apply Rmult_lt_0_compat|]; assumption.
    + destruct Hd as [Hd1 _]; destruct Hd' as [Hd1' _].
      replace (d ^ 2) with (d * d) by ring; replace (d' ^ 2) with (d' * d') by ring.
      apply Rinv_lt_contravar; [apply Rmult_lt_0_compat|]; nra.
  - rewrite gravity_force_scale_mass1, magnitude_vmul, Rabs_pos_eq by lra.
    fold F; ring.
  - rewrite gravity_force_scale_mass2, magnitude_vmul, Rabs_pos_eq by lra.
    fold F; ring.
Qed.

Lemma gravity_force_inverse_square_witness :
  5 <= magnitude (vsub (mkVector2D 400 300) (mkVector2D 100 300)) <= 500
  /\ magnitude (calculate_gravity_force default_physics (mkVector2D 100 300) 1
                  (mkVector2D 400 300) 100)
     = 5000 * 100 * 1 / magnitude (vsub (mkVector2D 400 300) (mkVector2D 100 300)) ^ 2.
Proof.
  assert (Hd : magnitude (vsub (mkVector2D 400 300) (mkVector2D 100 300)) = 300).
  { unfold vsub; simpl vx; simpl vy.
    replace (400 - 100) with 300 by ring; replace (300 - 300) with 0 by ring.
    apply magnitude_axis; lra. }
  split; [rewrite Hd; lra|].
  apply (gravity_force_inverse_square default_physics (mkVector2D 100 300) 1
           (mkVector2D 400 300) 100); simpl gravity_constant;
    simpl max_gravity_distance; lra.
Defined.

(** ** Flight state machine *)

Lemma set_state_twice (e : GameEngine) (a b : GameState) :
  set_state (set_state e a) b = set_state e b.
Proof. reflexivity. Qed.

Lemma reset_for_next_shot_idem (e : GameEngine) :
  reset_for_next_shot (reset_for_next_shot e) = reset_for_next_shot e.
Proof.
  unfold reset_for_next_shot.
  destruct (max_shots (current_level e) <=? shots_used (current_level e))%Z eqn:E;
    simpl; rewrite E; reflexivity.
Qed.

Lemma reset_for_next_shot_level (e : GameEngine) :
  current_level (reset_for_next_shot e) = current_level e
  /\ screen_width (reset_for_next_shot e) = screen_width e.
Proof.
  unfold reset_for_next_shot; destruct (_ <=? _)%Z; split; reflexivity.
Qed.

Lemma collision_scan_first (s : Spaceship) (objs : list GameObject)
    (e : GameEngine) :
  collision_scan s objs e =
  match first_collision s objs with
  | Some obj =>
      if is_goal (current_level e) obj then set_state e LEVEL_COMPLETE
      else reset_for_next_shot e
  | None => e
  end.
Proof.
  induction objs as [|obj rest IH]; [reflexivity|]; simpl.
  destruct (collides_with s obj); [reflexivity | exact IH].
Qed.

(** One tick of a launched spaceship: the first object hit in list order
    decides, the off-screen test comes last, and the retry decision is
    [reset_for_next_shot] on the advanced engine. *)
Lemma update_flying_decision (e : GameEngine) (s : Spaceship) (dt : R) :
  spaceship e = Some s -> launched s = true ->
  let s1 := advance_spaceship (physics e) (current_level e) s dt in
  let e1 := set_spaceship e (Some s1) in
  update_flying e dt =
  match first_collision s1 (objects (current_level e)) with
  | Some obj =>
      if is_goal (current_level e) obj then
        if off_screen e (s_position s1) then reset_for_next_shot e1
        else set_state e1 LEVEL_COMPLETE
      else reset_for_next_shot e1
  | None => if off_screen e (s_position s1) then reset_for_next_shot e1 else e1
  end.
Proof.
  intros Hs Hl s1 e1.
  assert (Hlaunched : launched s1 = true).
  { unfold s1, advance_spaceship, update_object_physics, spaceship_update,
      set_motion; simpl; rewrite Hl; reflexivity. }
  unfold update_flying; rewrite Hs, Hl; fold s1.
  unfold check_collisions; cbn [spaceship set_spaceship]; rewrite Hlaunched.
  rewrite collision_scan_first; cbn [current_level set_spaceship].
  fold e1.
  destruct (first_collision s1 (objects (current_level e))) as [obj|];
    [|reflexivity].
  destruct (is_goal (current_level e) obj); [reflexivity|].
  subst e1; unfold reset_for_next_shot; cbn [current_level set_spaceship set_state].
  destruct (max_shots (current_level e) <=? shots_used (current_level e))%Z eqn:E;
    cbn [spaceship set_state set_spaceship screen_width];
    (destruct (off_screen _ _); [|reflexivity]);
    cbn [current_level set_state set_spaceship]; rewrite E; reflexivity.
Qed.

Lemma update_object_physics_nil (pe : PhysicsEngine) (pos vel : Vector2D)
    (m dt : R) :
  update_object_physics pe pos vel m [] dt = (vadd pos (vmul vel dt), vel).
Proof.
  unfold update_object_physics; rewrite calculate_total_gravity_nil.
  destruct vel as [x y]; unfold vadd, vmul, vdiv; simpl.
  f_equal; f_equal; f_equal; unfold Rdiv; ring.
Qed.

Lemma advance_spaceship_nil (pe : PhysicsEngine) (l : Level) (s : Spaceship)
    (dt : R) :
  gravity_sources l = [] ->
  s_position (advance_spaceship pe l s dt) = vadd (s_position s) (vmul (s_velocity s) dt)
  /\ s_velocity (advance_spaceship pe l s dt) = s_velocity s.
Proof.
  intro H; unfold advance_spaceship; rewrite H, update_object_physics_nil.
  unfold spaceship_update, set_motion; destruct (launched s); split; reflexivity.
Qed.

Lemma collides_with_same_centre (s : Spaceship) (o : GameObject) :
  vx (s_position s) = vx (position o) -> vy (s_position s) = vy (position o) ->
  0 < s_radius s + radius o -> collides_with s o = true.
Proof.
  intros Hx Hy Hr; unfold collides_with, vsub; apply Rltb_true.
  rewrite Hx, Hy; replace (vx (position o) - vx (position o)) with 0 by ring.
  replace (vy (position o) - vy (position o)) with 0 by ring.
  rewrite magnitude_zero; exact Hr.
Qed.

(** C1 (counterexample): with the obstacle listed before the goal and the
    craft overlapping both, the tick ends in the retry decision (state
    Aiming), not in Succeeded. *)
Lemma overlap_obstacle_first_not_succeeded :
  let s1 := advance_spaceship default_physics ex_overlap_level ex_overlap_ship (1 / 10) in
  collides_with s1 ex_obstacle = true
  /\ collides_with s1 ex_goal = true
  /\ state (update_flight ex_overlap_engine (1 / 10)) = AIMING.
Proof.
  intro s1.
  destruct (advance_spaceship_nil default_physics ex_overlap_level ex_overlap_ship
              (1 / 10) eq_refl) as [Hp _].
  fold s1 in Hp.
  assert (Hx : vx (s_position s1) = 200)
    by (rewrite Hp; simpl; ring).
  assert (Hy : vy (s_position s1) = 300)
    by (rewrite Hp; simpl; ring).
  assert (Ho : collides_with s1 ex_obstacle = true)
    by (apply collides_with_same_centre; simpl; lra).
  assert (Hg : collides_with s1 ex_goal = true)
    by (apply collides_with_same_centre; simpl; lra).
  split; [exact Ho | split; [exact Hg|]].
  unfold update_flight; simpl state.
  rewrite (update_flying_decision ex_overlap_engine ex_overlap_ship (1 / 10)
             eq_refl eq_refl).
  simpl current_level; simpl physics; fold s1.
  simpl objects; simpl first_collision; rewrite Ho.
  reflexivity.
Qed.

(** C1 (amended): one tick in the Flying state runs the integrator once on
    the launched craft, then scans the level's objects in list order and the
    first object the craft overlaps decides: the goal gives Succeeded (when
    the craft is inside the off-screen bound), any other object gives the
    retry decision; with no overlap, a position outside the off-screen bound
    gives the retry decision, otherwise the craft keeps flying. *)
Theorem update_flight_first_hit_decides :
  forall e s dt,
    state e = FLYING -> spaceship e = Some s -> launched s = true ->
    let s1 := advance_spaceship (physics e) (current_level e) s dt in
    let e1 := set_spaceship e (Some s1) in
    let objs := objects (current_level e) in
    (forall obj, first_collision s1 objs = Some obj ->
       is_goal (current_level e) obj = true -> off_screen e (s_position s1) = false ->
       update_flight e dt = set_state e1 LEVEL_COMPLETE)
    /\ (forall obj, first_collision s1 objs = Some obj ->
       is_goal (current_level e) obj = false ->
       update_flight e dt = reset_for_next_shot e1)
    /\ (first_collision s1 objs = None -> off_screen e (s_position s1) = true ->
       update_flight e dt = reset_for_next_shot e1)
    /\ (first_collision s1 objs = None -> off_screen e (s_position s1) = false ->
       update_flight e dt = e1).
Proof.
  intros e s dt Hst Hs Hl s1 e1 objs.
  assert (H : update_flight e dt = update_flying e dt)
    by (unfold update_flight; rewrite Hst; reflexivity).
  rewrite H, (update_flying_decision e s dt Hs Hl); fold s1 e1 objs.
  repeat split.
  - intros obj Hf Hg Ho; rewrite Hf, Hg, Ho; reflexivity.
  - intros obj Hf Hg; rewrite Hf, Hg; reflexivity.
  - intros Hf Ho; rewrite Hf, Ho; reflexivity.
  - intros Hf Ho; rewrite Hf, Ho; reflexivity.
Qed.

Lemma update_flight_first_hit_decides_witness :
  state ex_overlap_engine = FLYING /\ launched ex_overlap_ship = true /\
  first_collision
    (advance_spaceship default_physics ex_overlap_level ex_overlap_ship (1 / 10))
    [ex_obstacle; ex_goal] = Some ex_obstacle /\
  update_flight ex_overlap_engine (1 / 10) =
  reset_for_next_shot (set_spaceship ex_overlap_engine (Some
    (advance_spaceship default_physics ex_overlap_level ex_overlap_ship (1 / 10)))).
Proof.
  assert (Hf : first_collision
    (advance_spaceship default_physics ex_overlap_level ex_overlap_ship (1 / 10))
    [ex_obstacle; ex_goal] = Some ex_obstacle).
  { destruct (advance_spaceship_nil default_physics ex_overlap_level ex_overlap_ship
                (1 / 10) eq_refl) as [Hp _].
    simpl first_collision.
    rewrite collides_with_same_centre; [reflexivity | | | simpl; lra];
      rewrite Hp; simpl; ring. }
  split; [reflexivity | split; [reflexivity | split; [exact Hf|]]].
  exact (proj1 (proj2 (update_flight_first_hit_decides ex_overlap_engine
           ex_overlap_ship (1 / 10) eq_refl eq_refl eq_refl)) ex_obstacle Hf eq_refl).
Defined.

(** ** Launch *)

Lemma magnitude_nonneg (v : Vector2D) : 0 <= magnitude v.
Proof. apply sqrt_pos. Qed.

Lemma launch_velocity_magnitude (e : GameEngine) :
  0 < magnitude (slingshot_vector e) -> 0 < max_slingshot_distance e ->
  magnitude (launch_velocity e)
    = slingshot_distance e / max_slingshot_distance e * 350.
Proof.
  intros Hv Hm; unfold launch_velocity.
  assert (Hd : 0 <= slingshot_distance e).
  { unfold slingshot_distance; apply Rmin_glb; lra. }
  rewrite !magnitude_vmul, magnitude_normalize by exact Hv.
  rewrite (Rabs_pos_eq 350) by lra.
  rewrite Rabs_pos_eq; [ring|].
  unfold Rdiv; apply Rmult_le_pos; [exact Hd|].
  apply Rlt_le, Rinv_0_lt_compat; exact Hm.
Qed.

Lemma launch_spaceship_reject (e : GameEngine) (s : Spaceship) :
  spaceship e = Some s -> launched s = false ->
  slingshot_distance e <= 10 -> launch_spaceship e = e.
Proof.
  intros Hs Hl Hd; unfold launch_spaceship; rewrite Hs, Hl; simpl negb.
  replace (Rltb 10 (slingshot_distance e)) with false
    by (symmetry; apply Rltb_false; lra).
  reflexivity.
Qed.

Lemma launch_spaceship_accept (e : GameEngine) (s : Spaceship) :
  spaceship e = Some s -> launched s = false ->
  10 < slingshot_distance e ->
  launch_spaceship e =
  set_level (set_state (set_spaceship e (Some (launch s (launch_velocity e)))) FLYING)
    (set_shots_used (current_level e) (shots_used (current_level e) + 1)%Z).
Proof.
  intros Hs Hl Hd; unfold launch_spaceship; rewrite Hs, Hl; simpl negb.
  replace (Rltb 10 (slingshot_distance e)) with true
    by (symmetry; apply Rltb_true; lra).
  reflexivity.
Qed.

(** C3 (counterexample): no speed threshold [T] makes the claim hold: the
    code rejects exactly the pulls with [slingshot_distance <= 10], i.e. the
    requested speeds [<= 175/6], so a request at the threshold speed is
    rejected, while "at or above [T]" would accept it. *)
Lemma launch_no_speed_threshold :
  ~ exists T : R,
      forall e s, state e = AIMING -> spaceship e = Some s -> launched s = false ->
        (magnitude (launch_velocity e) < T -> launch_spaceship e = e)
        /\ (T <= magnitude (launch_velocity e) -> state (launch_spaceship e) = FLYING).
Proof.
  intros [T HT].
  (* pulling the mouse to (-x, 0) from the base (0, 0) *)
  set (E := fun x => ex_aiming_engine ex_one_shot_level (mkVector2D 0 0)
                       (mkVector2D (- x) 0)).
  assert (Hvec : forall x, 0 < x -> magnitude (slingshot_vector (E x)) = x).
  { intros x Hx; unfold slingshot_vector, E, ex_aiming_engine, vsub; simpl.
    replace (0 - - x) with x by ring; replace (0 - 0) with 0 by ring.
    apply magnitude_axis; lra. }
  assert (Hdist : forall x, 0 < x -> slingshot_distance (E x) = Rmin x 120).
  { intros x Hx; unfold slingshot_distance; rewrite Hvec by exact Hx; reflexivity. }
  assert (Hspeed : forall x, 0 < x ->
            magnitude (launch_velocity (E x)) = Rmin x 120 / 120 * 350).
  { intros x Hx; rewrite launch_velocity_magnitude, Hdist by (try rewrite Hvec; simpl; lra).
    reflexivity. }
  assert (HS : forall x, spaceship (E x) = Some (new_spaceship 100 300)) by reflexivity.
  destruct (Rle_or_lt T (175 / 6)) as [Hle|Hgt].
  - (* T <= 175/6: a pull of exactly 10 is at or above T, yet rejected *)
    destruct (HT (E 10) (new_spaceship 100 300) eq_refl eq_refl eq_refl) as [_ H].
    rewrite launch_spaceship_reject with (s := new_spaceship 100 300) in H;
      [discriminate H| reflexivity | reflexivity | ].
    + rewrite Hspeed by lra; rewrite Rmin_left by lra; lra.
    + rewrite Hdist by lra; rewrite Rmin_left; lra.
  - (* T > 175/6: a pull slightly above 10 is below T, yet accepted *)
    set (x := Rmin 120 (5 + T * 6 / 35)).
    assert (Hx1 : 10 < x) by (unfold x; apply Rmin_glb_lt; lra).
    assert (Hx2 : x <= 120) by (unfold x; apply Rmin_l).
    assert (Hx3 : x <= 5 + T * 6 / 35) by (unfold x; apply Rmin_r).
    destruct (HT (E x) (new_spaceship 100 300) eq_refl eq_refl eq_refl) as [H _].
    assert (Hacc : 10 < slingshot_distance (E x))
      by (rewrite Hdist by lra; rewrite Rmin_left; lra).
    assert (Hlt : magnitude (launch_velocity (E x)) < T)
      by (rewrite Hspeed by lra; rewrite Rmin_left by lra; lra).
    specialize (H Hlt).
    rewrite (launch_spaceship_accept (E x) (new_spaceship 100 300) eq_refl eq_refl Hacc)
      in H.
    apply (f_equal state) in H; discriminate H.
Qed.

(** C3 (amended): a launch of an unlaunched craft with pull distance
    [d = min(|slingshot_base - mouse_pos|, max_slingshot_distance) <= 10] is
    rejected and changes nothing; with [d > 10] the craft is launched with
    velocity [normalize(pull) * (d / max) * 350] (speed [d / max * 350]),
    keeps its position, [shots_used] grows by one and the state is Flying. *)
Theorem launch_spaceship_threshold :
  forall e s,
    spaceship e = Some s -> launched s = false ->
    (slingshot_distance e <= 10 -> launch_spaceship e = e)
    /\ (10 < slingshot_distance e ->
          state (launch_spaceship e) = FLYING
          /\ spaceship (launch_spaceship e) = Some (launch s (launch_velocity e))
          /\ s_position (launch s (launch_velocity e)) = s_position s
          /\ launched (launch s (launch_velocity e)) = true
          /\ shots_used (current_level (launch_spaceship e))
             = (shots_used (current_level e) + 1)%Z
          /\ (0 < max_slingshot_distance e ->
              magnitude (launch_velocity e)
                = slingshot_distance e / max_slingshot_distance e * 350)).
Proof.
  intros e s Hs Hl; split.
  - apply launch_spaceship_reject with (s := s); assumption.
  - intro Hd; rewrite (launch_spaceship_accept e s Hs Hl Hd).
    split; [reflexivity|split; [reflexivity|split; [reflexivity|split; [reflexivity|]]]].
    split; [reflexivity|].
    intro Hm; apply launch_velocity_magnitude; [|exact Hm].
    unfold slingshot_distance in Hd.
    pose proof (Rmin_l (magnitude (slingshot_vector e)) (max_slingshot_distance e)).
    lra.
Qed.

Lemma ex_pull_50 :
  slingshot_distance (ex_aiming_engine ex_one_shot_level (mkVector2D 100 300)
                        (mkVector2D 50 300)) = 50.
Proof.
  unfold slingshot_distance, slingshot_vector, ex_aiming_engine, vsub; simpl.
  replace (100 - 50) with 50 by ring; replace (300 - 300) with 0 by ring.
  rewrite magnitude_axis by lra; apply Rmin_left; lra.
Qed.

Lemma ex_pull_5 :
  slingshot_distance (ex_aiming_engine ex_one_shot_level (mkVector2D 100 300)
                        (mkVector2D 95 300)) = 5.
Proof.
  unfold slingshot_distance, slingshot_vector, ex_aiming_engine, vsub; simpl.
  replace (100 - 95) with 5 by ring; replace (300 - 300) with 0 by ring.
  rewrite magnitude_axis by lra; apply Rmin_left; lra.
Qed.

Lemma launch_spaceship_threshold_witness :
  let e_short := ex_aiming_engine ex_one_shot_level (mkVector2D 100 300) (mkVector2D 95 300) in
  let e_long := ex_aiming_engine ex_one_shot_level (mkVector2D 100 300) (mkVector2D 50 300) in
  slingshot_distance e_short <= 10 /\ launch_spaceship e_short = e_short
  /\ 10 < slingshot_distance e_long /\ state (launch_spaceship e_long) = FLYING.
Proof.
  intros e_short e_long.
  assert (H5 : slingshot_distance e_short <= 10) by (unfold e_short; rewrite ex_pull_5; lra).
  assert (H50 : 10 < slingshot_distance e_long) by (unfold e_long; rewrite ex_pull_50; lra).
  split; [exact H5 | split; [|split; [exact H50|]]].
  - apply (launch_spaceship_threshold e_short (new_spaceship 100 300) eq_refl eq_refl).
    exact H5.
  - apply (launch_spaceship_threshold e_long (new_spaceship 100 300) eq_refl eq_refl).
    exact H50.
Defined.

(** ** Failed-or-retry decision *)

(** C2: [reset_for_next_shot] leaves the level (hence [shots_used]) as it
    is; with [shots_used >= max_shots] it ends the game, otherwise it puts a
    fresh, unlaunched craft at rest on the level start and returns to
    Aiming.  Scenario: with [max_shots = 1], an accepted first launch whose
    first tick hits an obstacle ends in Game Over with [shots_used = 1]. *)
Theorem failed_or_retry_decision :
  (forall e,
     let l := current_level e in
     let e' := reset_for_next_shot e in
     current_level e' = l
     /\ ((max_shots l <= shots_used l)%Z -> state e' = GAME_OVER)
     /\ ((shots_used l < max_shots l)%Z ->
           state e' = AIMING
           /\ spaceship e' = Some (new_spaceship (vx (spaceship_start l))
                                                 (vy (spaceship_start l)))
           /\ s_velocity (new_spaceship (vx (spaceship_start l))
                                        (vy (spaceship_start l))) = mkVector2D 0 0))
  /\ (forall e s dt,
        state e = AIMING -> spaceship e = Some s -> launched s = false ->
        max_shots (current_level e) = 1%Z -> shots_used (current_level e) = 0%Z ->
        10 < slingshot_distance e ->
        let e1 := launch_spaceship e in
        let s1 := advance_spaceship (physics e) (current_level e)
                    (launch s (launch_velocity e)) dt in
        (exists obj, first_collision s1 (objects (current_level e)) = Some obj
                     /\ is_goal (current_level e) obj = false) ->
        state e1 = FLYING
        /\ state (update_flight e1 dt) = GAME_OVER
        /\ shots_used (current_level (update_flight e1 dt)) = 1%Z).
Proof.
  split.
  - intros e l e'; split; [apply reset_for_next_shot_level|split].
    + intro H; unfold e', reset_for_next_shot; fold l.
      replace (max_shots l <=? shots_used l)%Z with true
        by (symmetry; apply Z.leb_le; lia).
      reflexivity.
    + intro H; unfold e', reset_for_next_shot; fold l.
      replace (max_shots l <=? shots_used l)%Z with false
        by (symmetry; apply Z.leb_gt; lia).
      split; [reflexivity | split; reflexivity].
  - intros e s dt Hst Hs Hl Hmax Hused Hd e1 s1 [obj [Hfc Hg]].
    assert (He1 : e1 = set_level (set_state (set_spaceship e
                          (Some (launch s (launch_velocity e)))) FLYING)
                          (set_shots_used (current_level e)
                             (shots_used (current_level e) + 1)%Z))
      by (apply launch_spaceship_accept; assumption).
    assert (Hst1 : state e1 = FLYING) by (rewrite He1; reflexivity).
    assert (Hs1 : spaceship e1 = Some (launch s (launch_velocity e)))
      by (rewrite He1; reflexivity).
    split; [exact Hst1|].
    unfold update_flight; rewrite Hst1.
    rewrite (update_flying_decision e1 _ dt Hs1 eq_refl).
    assert (Hsame : advance_spaceship (physics e1) (current_level e1)
                      (launch s (launch_velocity e)) dt = s1)
      by (rewrite He1; reflexivity).
    assert (Hobj : objects (current_level e1) = objects (current_level e))
      by (rewrite He1; reflexivity).
    assert (Hgoal : is_goal (current_level e1) obj = false)
      by (rewrite He1; exact Hg).
    rewrite Hsame, Hobj, Hfc, Hgoal.
    assert (Hl1 : current_level e1 = set_shots_used (current_level e) 1%Z)
      by (rewrite He1, Hused; reflexivity).
    unfold reset_for_next_shot; cbn [current_level set_spaceship].
    rewrite Hl1; cbn [max_shots shots_used set_shots_used]; rewrite Hmax.
    replace (1 <=? 1)%Z with true by reflexivity.
    split; [reflexivity|].
    cbn [current_level set_state set_spaceship]; rewrite Hl1; reflexivity.
Qed.

Lemma failed_or_retry_decision_witness :
  let e := ex_aiming_engine ex_one_shot_level (mkVector2D 100 300) (mkVector2D 50 300) in
  10 < slingshot_distance e
  /\ state (launch_spaceship e) = FLYING
  /\ state (update_flight (launch_spaceship e) (1 / 10)) = GAME_OVER
  /\ shots_used (current_level (update_flight (launch_spaceship e) (1 / 10))) = 1%Z.
Proof.
  intro e.
  assert (Hd : 10 < slingshot_distance e) by (unfold e; rewrite ex_pull_50; lra).
  set (lv := launch_velocity e).
  set (s1 := advance_spaceship (physics e) (current_level e)
               (launch (new_spaceship 100 300) lv) (1 / 10)).
  assert (Hhit : collides_with s1 ex_rock = true).
  { destruct (advance_spaceship_nil (physics e) (current_level e)
                (launch (new_spaceship 100 300) lv) (1 / 10) eq_refl) as [Hp _].
    fold s1 in Hp.
    assert (Hm : magnitude (vsub (s_position s1) (position ex_rock))
                 = magnitude (vmul lv (1 / 10))).
    { rewrite Hp; unfold magnitude, vsub, vadd, vmul; simpl.
      f_equal; ring. }
    assert (Hv : magnitude lv = 50 / 120 * 350).
    { unfold lv; rewrite launch_velocity_magnitude.
      - unfold e; rewrite ex_pull_50; reflexivity.
      - pose proof (Rmin_l (magnitude (slingshot_vector e)) (max_slingshot_distance e)).
        fold (slingshot_distance e) in H; lra.
      - simpl; lra. }
    unfold collides_with; apply Rltb_true.
    rewrite Hm, magnitude_vmul, Hv, Rabs_pos_eq by lra; simpl; lra. }
  destruct (proj2 failed_or_retry_decision e (new_spaceship 100 300) (1 / 10)
              eq_refl eq_refl eq_refl eq_refl eq_refl Hd)
    as [H1 [H2 H3]].
  - exists ex_rock; split; [|reflexivity].
    fold lv s1; simpl first_collision; rewrite Hhit; reflexivity.
  - split; [exact Hd | split; [exact H1 | split; [exact H2 | exact H3]]].
Defined.

(** ** Further properties of the physics engine *)

Lemma vec_ext (a b : Vector2D) : vx a = vx b -> vy a = vy b -> a = b.
Proof. destruct a, b; simpl; intros; subst; reflexivity. Qed.

Ltac vec_eq :=
  apply vec_ext; unfold vadd, vsub, vmul, vdiv; simpl; field; try assumption; try lra.

Lemma calculate_total_gravity_fold (pe : PhysicsEngine) (pos : Vector2D) (m : R)
    (l : list GameObject) :
  calculate_total_gravity pe pos m l
    = fold_left (fun t s => vadd t (source_force pe pos m s)) l (mkVector2D 0 0).
Proof. reflexivity. Qed.

Lemma fold_vadd_acc (g : GameObject -> Vector2D) (l : list GameObject)
    (acc : Vector2D) :
  fold_left (fun t s => vadd t (g s)) l acc
    = vadd acc (fold_left (fun t s => vadd t (g s)) l (mkVector2D 0 0)).
Proof.
  revert acc; induction l as [|a l IH]; intro acc; simpl.
  - vec_eq.
  - rewrite IH, (IH (vadd (mkVector2D 0 0) (g a))). vec_eq.
Qed.

Lemma calculate_total_gravity_cons (pe : PhysicsEngine) (pos : Vector2D) (m : R)
    (o : GameObject) (l : list GameObject) :
  calculate_total_gravity pe pos m (o :: l)
    = vadd (source_force pe pos m o) (calculate_total_gravity pe pos m l).
Proof.
  rewrite !calculate_total_gravity_fold; simpl.
  rewrite fold_vadd_acc. vec_eq.
Qed.

Lemma magnitude_zero_or_pos (v : Vector2D) :
  (vx v = 0 /\ vy v = 0) \/ 0 < magnitude v.
Proof.
  destruct (Req_dec (vx v ^ 2 + vy v ^ 2) 0) as [H|H].
  - left; split; nra.
  - right; unfold magnitude; apply sqrt_lt_R0; nra.
Qed.

Lemma normalize_pos (v : Vector2D) :
  0 < magnitude v -> normalize v = vmul v (/ magnitude v).
Proof.
  intro H; unfold normalize.
  replace (Rltb 0 (magnitude v)) with true by (symmetry; apply Rltb_true; exact H).
  reflexivity.
Qed.

Lemma normalize_vmul_pos (v : Vector2D) (k : R) :
  0 < k -> normalize (vmul v k) = normalize v.
Proof.
  intro Hk; pose proof (magnitude_nonneg v) as Hn.
  assert (Hm : magnitude (vmul v k) = k * magnitude v)
    by (rewrite magnitude_vmul, Rabs_pos_eq by lra; reflexivity).
  unfold normalize; rewrite Hm.
  destruct (Rltb 0 (magnitude v)) eqn:E.
  - apply Rltb_true in E.
    replace (Rltb 0 (k * magnitude v)) with true
      by (symmetry; apply Rltb_true; nra).
    unfold vmul; simpl; f_equal; field; lra.
  - apply Rltb_false in E.
    replace (Rltb 0 (k * magnitude v)) with false
      by (symmetry; apply Rltb_false; nra).
    reflexivity.
Qed.

Lemma normalize_unit (v : Vector2D) :
  0 < magnitude v -> normalize (normalize v) = normalize v.
Proof.
  intro H; rewrite (normalize_pos (normalize v)) by (rewrite magnitude_normalize; lra).
  rewrite magnitude_normalize by exact H.
  destruct (normalize v); unfold vmul; simpl; f_equal; field.
Qed.

Lemma magnitude_vsub_sym (a b : Vector2D) :
  magnitude (vsub a b) = magnitude (vsub b a).
Proof. unfold magnitude, vsub; simpl; f_equal; ring. Qed.

Lemma source_force_scale_mass (pe : PhysicsEngine) (pos : Vector2D) (m : R)
    (o : GameObject) :
  source_force pe pos m o = vmul (source_force pe pos 1 o) m.
Proof.
  unfold source_force.
  assert (H : calculate_gravity_force pe pos m (position o) (mass o)
              = vmul (calculate_gravity_force pe pos 1 (position o) (mass o)) m)
    by (rewrite <- gravity_force_scale_mass1; f_equal; ring).
  rewrite H; destruct (anti_gravity o); vec_eq.
Qed.

Lemma total_gravity_scale_mass (pe : PhysicsEngine) (pos : Vector2D) (m : R)
    (l : list GameObject) :
  calculate_total_gravity pe pos m l = vmul (calculate_total_gravity pe pos 1 l) m.
Proof.
  induction l as [|o l IH].
  - rewrite !calculate_total_gravity_nil; vec_eq.
  - rewrite !calculate_total_gravity_cons, IH, source_force_scale_mass.
    vec_eq.
Qed.

Lemma update_object_physics_unit_mass (pe : PhysicsEngine) (pos vel : Vector2D)
    (m : R) (l : list GameObject) (dt : R) :
  m <> 0 ->
  update_object_physics pe pos vel m l dt = update_object_physics pe pos vel 1 l dt.
Proof.
  intro Hm; unfold update_object_physics.
  rewrite (total_gravity_scale_mass pe pos m l).
  replace (vdiv (vmul (calculate_total_gravity pe pos 1 l) m) m)
    with (vdiv (calculate_total_gravity pe pos 1 l) 1) by vec_eq.
  reflexivity.
Qed.

Lemma source_force_zero_mass (pe : PhysicsEngine) (pos : Vector2D) (m : R)
    (o : GameObject) :
  mass o = 0 -> source_force pe pos m o = mkVector2D 0 0.
Proof.
  intro Hz; unfold source_force; rewrite Hz.
  assert (H : calculate_gravity_force pe pos m (position o) 0
              = vmul (calculate_gravity_force pe pos m (position o) 1) 0)
    by (rewrite <- gravity_force_scale_mass2; f_equal; ring).
  rewrite H; destruct (anti_gravity o); vec_eq.
Qed.

Lemma predict_loop_S (pe : PhysicsEngine) (m : R) (l : list GameObject) (dt : R)
    (n : nat) (pos vel : Vector2D) :
  predict_loop pe m l dt (S n) pos vel
    = (vx pos, vy pos) ::
        (let '(pos', vel') := update_object_physics pe pos vel m l dt in
         if predict_out_of_bounds pos' then [] else predict_loop pe m l dt n pos' vel').
Proof. reflexivity. Qed.

(** X1. [normalize] sends the zero vector to the zero vector and any other
    vector to the unit vector along it. *)
Theorem normalize_zero_or_unit (v : Vector2D) :
  (v = mkVector2D 0 0 /\ normalize v = mkVector2D 0 0)
  \/ (0 < magnitude v /\ magnitude (normalize v) = 1
      /\ normalize v = vmul v (/ magnitude v)).
Proof.
  destruct (magnitude_zero_or_pos v) as [[Hx Hy]|H].
  - left; destruct v as [x y]; simpl in Hx, Hy; subst; split; [reflexivity|].
    unfold normalize; rewrite magnitude_zero.
    replace (Rltb 0 0) with false by (symmetry; apply Rltb_false; lra).
    reflexivity.
  - right; split; [exact H|split].
    + apply magnitude_normalize; exact H.
    + apply normalize_pos; exact H.
Qed.

(** X2. Superposition: the total gravity of two lists of sources put end to
    end is the sum of their totals. *)
Theorem total_gravity_app (pe : PhysicsEngine) (pos : Vector2D) (m : R)
    (l1 l2 : list GameObject) :
  calculate_total_gravity pe pos m (l1 ++ l2)
    = vadd (calculate_total_gravity pe pos m l1) (calculate_total_gravity pe pos m l2).
Proof.
  rewrite !calculate_total_gravity_fold, fold_left_app, fold_vadd_acc.
  reflexivity.
Qed.

(** X3. Flipping the [anti_gravity] flag of every source exactly negates the
    total gravity. *)
Theorem total_gravity_toggle_anti (pe : PhysicsEngine) (pos : Vector2D) (m : R)
    (l : list GameObject) :
  calculate_total_gravity pe pos m (map toggle_anti_gravity l)
    = vmul (calculate_total_gravity pe pos m l) (-1).
Proof.
  induction l as [|o l IH]; simpl map.
  - rewrite !calculate_total_gravity_nil; vec_eq.
  - rewrite !calculate_total_gravity_cons, IH.
    unfold source_force, toggle_anti_gravity; simpl.
    destruct (anti_gravity o); simpl; vec_eq.
Qed.

(** X4. Newton's third law: the force on the first body is the opposite of
    the force on the second body. *)
Theorem gravity_force_antisymmetric (pe : PhysicsEngine) (p1 : Vector2D) (m1 : R)
    (p2 : Vector2D) (m2 : R) :
  calculate_gravity_force pe p1 m1 p2 m2
    = vmul (calculate_gravity_force pe p2 m2 p1 m1) (-1).
Proof.
  unfold calculate_gravity_force.
  rewrite (magnitude_vsub_sym p1 p2).
  destruct (Rltb (magnitude (vsub p2 p1)) 5); [vec_eq|].
  destruct (Rltb (max_gravity_distance pe) (magnitude (vsub p2 p1))); [vec_eq|].
  unfold normalize; rewrite (magnitude_vsub_sym p1 p2).
  destruct (Rltb 0 (magnitude (vsub p2 p1))) eqn:E.
  - apply Rltb_true in E.
    set (d := magnitude (vsub p2 p1)) in *.
    apply vec_ext; unfold vmul, vsub; simpl; field; lra.
  - apply vec_ext; unfold vmul; simpl; ring.
Qed.

(** X5. Sources of zero mass pull nothing: when no source has negative mass,
    keeping only the sources of positive mass (as [load_from_data] does for
    [gravity_sources]) leaves the total gravity unchanged. *)
Theorem total_gravity_positive_mass_sources (pe : PhysicsEngine) (pos : Vector2D)
    (m : R) (l : list GameObject) :
  (forall o, In o l -> 0 <= mass o) ->
  calculate_total_gravity pe pos m (filter (fun o => Rltb 0 (mass o)) l)
    = calculate_total_gravity pe pos m l.
Proof.
  induction l as [|o l IH]; intro Hl; [reflexivity|].
  simpl filter.
  assert (IH' : calculate_total_gravity pe pos m (filter (fun o => Rltb 0 (mass o)) l)
                = calculate_total_gravity pe pos m l)
    by (apply IH; intros o' Ho'; apply Hl; right; exact Ho').
  destruct (Rltb 0 (mass o)) eqn:E.
  - rewrite !calculate_total_gravity_cons, IH'; reflexivity.
  - apply Rltb_false in E.
    assert (Hz : mass o = 0) by (pose proof (Hl o (or_introl eq_refl)); lra).
    rewrite calculate_total_gravity_cons, IH', source_force_zero_mass by exact Hz.
    vec_eq.
Qed.

Lemma total_gravity_positive_mass_sources_witness :
  (forall o, In o [ex_rock; ex_goal; new_black_hole 3 500 300 200] -> 0 <= mass o)
  /\ calculate_total_gravity default_physics (mkVector2D 100 300) 1
       (filter (fun o => Rltb 0 (mass o)) [ex_rock; ex_goal; new_black_hole 3 500 300 200])
     = calculate_total_gravity default_physics (mkVector2D 100 300) 1
         [ex_rock; ex_goal; new_black_hole 3 500 300 200].
Proof.
  assert (H : forall o, In o [ex_rock; ex_goal; new_black_hole 3 500 300 200] -> 0 <= mass o).
  { intros o [Ho|[Ho|[Ho|[]]]]; subst o; simpl; lra. }
  split; [exact H|].
  apply (total_gravity_positive_mass_sources default_physics (mkVector2D 100 300) 1
           [ex_rock; ex_goal; new_black_hole 3 500 300 200] H).
Defined.

(** X6. Within range, an ordinary source of positive mass pulls the body
    straight towards it and an anti-gravity source pushes it straight away. *)
Theorem source_force_direction (pe : PhysicsEngine) (pos : Vector2D) (m : R)
    (o : GameObject) :
  5 <= magnitude (vsub (position o) pos) <= max_gravity_distance pe ->
  0 < gravity_constant pe * m * mass o ->
  exists k, 0 < k /\
    source_force pe pos m o
      = vmul (vsub (position o) pos) (if anti_gravity o then - k else k).
Proof.
  intros Hd Hg; set (d := magnitude (vsub (position o) pos)) in *.
  exists (gravity_constant pe * m * mass o / d ^ 2 / d); split.
  - unfold Rdiv; apply Rmult_lt_0_compat; [apply Rmult_lt_0_compat|].
    + exact Hg.
    + apply Rinv_0_lt_compat; nra.
    + apply Rinv_0_lt_compat; lra.
  - unfold source_force; rewrite gravity_force_in_range by exact Hd.
    rewrite normalize_pos by (fold d; lra); fold d.
    destruct (anti_gravity o); unfold vmul; simpl; f_equal; field; lra.
Qed.

Lemma source_force_direction_witness :
  (5 <= magnitude (vsub (position ex_rock) (mkVector2D 100 200))
     <= max_gravity_distance default_physics
   /\ 0 < gravity_constant default_physics * 1 * mass (new_black_hole 3 100 300 200))
  /\ exists k, 0 < k /\
       source_force default_physics (mkVector2D 100 200) 1 (new_black_hole 3 100 300 200)
         = vmul (vsub (position (new_black_hole 3 100 300 200)) (mkVector2D 100 200))
             (if anti_gravity (new_black_hole 3 100 300 200) then - k else k).
Proof.
  assert (Hm : magnitude (vsub (mkVector2D 100 300) (mkVector2D 100 200)) = 100).
  { unfold magnitude, vsub; cbn [vx vy].
    replace ((100 - 100) ^ 2 + (300 - 200) ^ 2) with (100 ^ 2) by ring.
    apply sqrt_pow2; lra. }
  assert (Hd : 5 <= magnitude (vsub (position ex_rock) (mkVector2D 100 200))
                 <= max_gravity_distance default_physics)
    by (simpl position; rewrite Hm; simpl; lra).
  assert (Hg : 0 < gravity_constant default_physics * 1 * mass (new_black_hole 3 100 300 200))
    by (simpl; lra).
  split; [split; [exact Hd | exact Hg]|].
  apply (source_force_direction default_physics (mkVector2D 100 200) 1
           (new_black_hole 3 100 300 200)); [simpl position; rewrite Hm; simpl; lra | exact Hg].
Defined.

(** X7. The integrator does not depend on the mass of the moving body: with
    any nonzero mass it moves the body as with mass 1. *)
Theorem update_object_physics_mass_independent (pe : PhysicsEngine)
    (pos vel : Vector2D) (m : R) (l : list GameObject) (dt : R) :
  m <> 0 ->
  update_object_physics pe pos vel m l dt = update_object_physics pe pos vel 1 l dt.
Proof. apply update_object_physics_unit_mass. Qed.

Lemma update_object_physics_mass_independent_witness :
  (25 <> 0)
  /\ update_object_physics default_physics (mkVector2D 100 300) (mkVector2D 50 0) 25
       [new_black_hole 3 400 300 200] (1 / 10)
     = update_object_physics default_physics (mkVector2D 100 300) (mkVector2D 50 0) 1
         [new_black_hole 3 400 300 200] (1 / 10).
Proof.
  split; [lra|].
  apply update_object_physics_mass_independent; lra.
Defined.

(** X8. The predicted trajectory does not depend on the mass of the body
    either. *)
Theorem predict_trajectory_mass_independent (pe : PhysicsEngine)
    (sp sv : Vector2D) (m : R) (l : list GameObject) (steps : Z) (dt : R) :
  m <> 0 ->
  predict_trajectory pe sp sv m l steps dt = predict_trajectory pe sp sv 1 l steps dt.
Proof.
  intro Hm; unfold predict_trajectory.
  generalize (mkVector2D (vx sp) (vy sp)) (mkVector2D (vx sv) (vy sv)).
  induction (Z.to_nat steps) as [|n IH]; intros pos vel; [reflexivity|].
  rewrite !predict_loop_S, update_object_physics_unit_mass by exact Hm.
  destruct (update_object_physics pe pos vel 1 l dt) as [pos' vel'].
  rewrite IH; reflexivity.
Qed.

Lemma predict_trajectory_mass_independent_witness :
  (3 <> 0)
  /\ predict_trajectory default_physics (mkVector2D 100 300) (mkVector2D 50 0) 3
       [new_black_hole 3 400 300 200] 60 (15 / 100)
     = predict_trajectory default_physics (mkVector2D 100 300) (mkVector2D 50 0) 1
         [new_black_hole 3 400 300 200] 60 (15 / 100).
Proof.
  split; [lra|].
  apply predict_trajectory_mass_independent; lra.
Defined.



(** X10. The predicted trajectory is the flight integrator run ahead: its
    [k]-th sample is the position after [k] calls of [update_object_physics]. *)
Theorem predict_loop_samples (pe : PhysicsEngine) (m : R) (l : list GameObject)
    (dt : R) (n k : nat) (pos vel : Vector2D) :
  (k < length (predict_loop pe m l dt n pos vel))%nat ->
  nth_error (predict_loop pe m l dt n pos vel) k
    = Some (to_tuple (fst (physics_iter pe m l dt k pos vel))).
Proof.
  revert k pos vel; induction n as [|n IH]; intros k pos vel Hk; simpl in Hk |- *.
  - lia.
  - destruct k as [|k]; [reflexivity|].
    simpl nth_error; simpl physics_iter.
    unfold update_object_physics.
    destruct (predict_out_of_bounds _) eqn:E; simpl in Hk |- *; [lia|].
    apply IH; lia.
Qed.

Lemma predict_loop_samples_witness :
  (1 < length (predict_loop default_physics 1 [] (1 / 10) 3
                 (mkVector2D 100 300) (mkVector2D 0 0)))%nat
  /\ nth_error (predict_loop default_physics 1 [] (1 / 10) 3
                  (mkVector2D 100 300) (mkVector2D 0 0)) 1
     = Some (to_tuple (fst (physics_iter default_physics 1 [] (1 / 10) 1
                              (mkVector2D 100 300) (mkVector2D 0 0)))).
Proof.
  assert (H : (1 < length (predict_loop default_physics 1 [] (1 / 10) 3
                             (mkVector2D 100 300) (mkVector2D 0 0)))%nat).
  { rewrite predict_loop_at_rest_length; simpl; lia || lra. }
  split; [exact H|].
  apply predict_loop_samples; exact H.
Defined.

(** ** Further properties of the level objects and the spaceship *)

(** X11. The gravity multiplier [calculate_color_based_mass] applies is the
    one of the label [determine_color_type] shows for the same colour. *)
Theorem color_mass_matches_label (base_mass : R) (color : Color) :
  calculate_color_based_mass base_mass color
    = base_mass * color_type_multiplier (determine_color_type color).
Proof.
  destruct color as [[r g] b].
  unfold calculate_color_based_mass, determine_color_type.
  destruct (Rltb 150 r), (Rltb g 100), (Rltb b 100), (Rltb 150 b), (Rltb r 100),
    (Rltb 150 g), (Rltb 100 r), (Rltb 100 b);
    reflexivity.
Qed.

Lemma color_based_mass_factor (base_mass : R) (color : Color) :
  exists k, 7 / 10 <= k <= 25 / 10 /\
    calculate_color_based_mass base_mass color = base_mass * k.
Proof.
  destruct color as [[r g] b]; unfold calculate_color_based_mass.
  destruct (Rltb 150 r && Rltb g 100 && Rltb b 100);
    [exists 2; split; [lra | reflexivity]|].
  destruct (Rltb 150 b && Rltb r 100 && Rltb g 100);
    [exists 1; split; [lra | reflexivity]|].
  destruct (Rltb 150 g && Rltb r 100 && Rltb b 100);
    [exists (7 / 10); split; [lra | reflexivity]|].
  destruct (Rltb 150 r && Rltb 150 g && Rltb b 100);
    [exists (15 / 10); split; [lra | reflexivity]|].
  destruct (Rltb 100 r && Rltb g 100 && Rltb 100 b);
    [exists (25 / 10); split; [lra | reflexivity]|].
  destruct (Rltb 150 r && Rltb 150 g && Rltb 150 b);
    [exists (12 / 10); split; [lra | reflexivity]|].
  exists 1; split; [lra | reflexivity].
Qed.

(** X12. A planet's effective mass lies between 0.7 and 2.5 times its base
    mass, and it is positive (the planet becomes a gravity source) exactly
    when the base mass is. *)
Theorem planet_mass_bounds (id : nat) (x y base_mass radius : R) (color : Color) :
  (0 <= base_mass ->
   7 / 10 * base_mass <= mass (new_planet id x y base_mass radius color)
                       <= 25 / 10 * base_mass)
  /\ (0 < mass (new_planet id x y base_mass radius color) <-> 0 < base_mass).
Proof.
  unfold new_planet; simpl mass.
  destruct (color_based_mass_factor base_mass color) as [k [Hk He]]; rewrite He.
  split; [intro H; split; nra|].
  split; intro H; nra.
Qed.



(** X14. The trail never grows past [max_trail_length]: one
    [Spaceship.update] keeps it within the limit. *)
Theorem spaceship_update_trail_bounded (s : Spaceship) :
  (length (trail s) <= max_trail_length s)%nat ->
  (length (trail (spaceship_update s)) <= max_trail_length (spaceship_update s))%nat.
Proof.
  intro H; unfold spaceship_update.
  destruct (launched s); [|exact H]; cbn [trail max_trail_length].
  assert (Htl : forall l : list (R * R), length (tl l) = pred (length l))
    by (intros [|? ?]; reflexivity).
  assert (Ht : length (trail s ++ [(vx (s_position s), vy (s_position s))])
               = S (length (trail s))) by (rewrite length_app; simpl; lia).
  destruct (Nat.ltb _ _) eqn:E.
  - rewrite Htl, Ht; simpl; exact H.
  - apply Nat.ltb_ge in E; exact E.
Qed.

Lemma spaceship_update_trail_bounded_witness :
  (length (trail (launch (new_spaceship 100 300) (mkVector2D 50 0)))
     <= max_trail_length (launch (new_spaceship 100 300) (mkVector2D 50 0)))%nat
  /\ (length (trail (spaceship_update (launch (new_spaceship 100 300) (mkVector2D 50 0))))
        <= max_trail_length (spaceship_update (launch (new_spaceship 100 300)
                                                 (mkVector2D 50 0))))%nat.
Proof.
  assert (H : (length (trail (launch (new_spaceship 100 300) (mkVector2D 50 0)))
                 <= max_trail_length (launch (new_spaceship 100 300) (mkVector2D 50 0)))%nat)
    by (simpl; lia).
  split; [exact H|].
  apply spaceship_update_trail_bounded; exact H.
Defined.

Lemma normalize_neg (v : Vector2D) :
  normalize (vmul v (-1)) = vmul (normalize v) (-1).
Proof.
  unfold normalize.
  rewrite magnitude_vmul.
  replace (Rabs (-1) * magnitude v) with (magnitude v)
    by (rewrite Rabs_left by lra; ring).
  destruct (Rltb 0 (magnitude v)) eqn:E.
  - apply Rltb_true in E; vec_eq.
  - vec_eq.
Qed.

Lemma magnitude_along (v : Vector2D) (k : R) :
  0 < magnitude v ->
  magnitude (vadd v (vmul (normalize v) k)) = Rabs (magnitude v + k).
Proof.
  intro H; rewrite normalize_pos by exact H.
  replace (vadd v (vmul (vmul v (/ magnitude v)) k))
    with (vmul v ((magnitude v + k) * / magnitude v)) by vec_eq.
  rewrite magnitude_vmul, Rabs_mult, Rabs_inv, (Rabs_pos_eq (magnitude v)) by lra.
  field; lra.
Qed.




(** X16. The shift key brakes: in flight and moving it spends 5 units of
    fuel and changes the speed [v] into [|v - 25|]; at rest it does nothing. *)
Theorem handle_key_shift_brake (e : GameEngine) (s : Spaceship) :
  state e = FLYING -> spaceship e = Some s -> launched s = true ->
  (0 < fuel s)%Z ->
  (magnitude (s_velocity s) = 0 -> handle_key_shift e = e)
  /\ (0 < magnitude (s_velocity s) ->
      exists s', spaceship (handle_key_shift e) = Some s'
        /\ fuel s' = (fuel s - 5)%Z
        /\ magnitude (s_velocity s') = Rabs (magnitude (s_velocity s) - 25)).
Proof.
  intros Hst Hs Hl Hf; unfold handle_key_shift; rewrite Hst, Hs.
  replace ((0 <? fuel s)%Z) with true by (symmetry; apply Z.ltb_lt; exact Hf).
  split; intro Hm.
  - replace (Rltb 0 (magnitude (s_velocity s))) with false
      by (symmetry; apply Rltb_false; lra).
    reflexivity.
  - replace (Rltb 0 (magnitude (s_velocity s))) with true
      by (symmetry; apply Rltb_true; lra).
    eexists; simpl; split; [reflexivity|].
    unfold use_thruster; rewrite Hl.
    replace ((0 <? fuel s)%Z) with true by (symmetry; apply Z.ltb_lt; exact Hf).
    simpl; split; [reflexivity|].
    rewrite normalize_neg, normalize_unit by exact Hm.
    replace (vadd (s_velocity s) (vmul (vmul (normalize (s_velocity s)) (-1)) 25))
      with (vadd (s_velocity s) (vmul (normalize (s_velocity s)) (-25))) by vec_eq.
    rewrite magnitude_along by exact Hm.
    f_equal; ring.
Qed.

Lemma handle_key_shift_brake_witness :
  (state (ex_flying_engine (mkVector2D 0 0)) = FLYING
   /\ spaceship (ex_flying_engine (mkVector2D 0 0))
      = Some (launch (new_spaceship 100 300) (mkVector2D 0 0))
   /\ launched (launch (new_spaceship 100 300) (mkVector2D 0 0)) = true
   /\ (0 < fuel (launch (new_spaceship 100 300) (mkVector2D 0 0)))%Z)
  /\ ((magnitude (s_velocity (launch (new_spaceship 100 300) (mkVector2D 0 0))) = 0 ->
       handle_key_shift (ex_flying_engine (mkVector2D 0 0)) = ex_flying_engine (mkVector2D 0 0))
      /\ (0 < magnitude (s_velocity (launch (new_spaceship 100 300) (mkVector2D 0 0))) ->
          exists s', spaceship (handle_key_shift (ex_flying_engine (mkVector2D 0 0))) = Some s'
            /\ fuel s' = (fuel (launch (new_spaceship 100 300) (mkVector2D 0 0)) - 5)%Z
            /\ magnitude (s_velocity s')
               = Rabs (magnitude (s_velocity (launch (new_spaceship 100 300)
                                                (mkVector2D 0 0))) - 25))).
Proof.
  split; [repeat split; reflexivity|].
  apply handle_key_shift_brake; reflexivity.
Defined.

Lemma aim_constrain (e : GameEngine) :
  0 < max_slingshot_distance e ->
  let e1 :=
    if Rltb (max_slingshot_distance e) (magnitude (slingshot_vector e)) then
      set_mouse_pos e (vsub (slingshot_base e)
                         (vmul (normalize (slingshot_vector e)) (max_slingshot_distance e)))
    else e in
  magnitude (slingshot_vector e1) <= max_slingshot_distance e
  /\ slingshot_distance e1 = slingshot_distance e
  /\ launch_velocity e1 = launch_velocity e
  /\ max_slingshot_distance e1 = max_slingshot_distance e.
Proof.
  intros Hmax e1; unfold e1; clear e1.
  destruct (Rltb (max_slingshot_distance e) (magnitude (slingshot_vector e))) eqn:E.
  - apply Rltb_true in E.
    set (M := max_slingshot_distance e) in *.
    set (sv := slingshot_vector e) in *.
    assert (Hv : slingshot_vector
                   (set_mouse_pos e (vsub (slingshot_base e) (vmul (normalize sv) M)))
                 = vmul (normalize sv) M).
    { unfold slingshot_vector; simpl; vec_eq. }
    assert (Hm : magnitude (vmul (normalize sv) M) = M).
    { rewrite magnitude_vmul, magnitude_normalize, Rabs_pos_eq by lra; ring. }
    assert (Hd : slingshot_distance
                   (set_mouse_pos e (vsub (slingshot_base e) (vmul (normalize sv) M))) = M).
    { unfold slingshot_distance; rewrite Hv, Hm; simpl; apply Rmin_left; unfold M; lra. }
    assert (Hd0 : slingshot_distance e = M).
    { unfold slingshot_distance; fold sv M; apply Rmin_right; lra. }
    split; [rewrite Hv, Hm; simpl; lra|].
    split; [rewrite Hd, Hd0; reflexivity|].
    split; [|reflexivity].
    unfold launch_velocity; rewrite Hv, Hd, Hd0; fold sv; simpl max_slingshot_distance.
    rewrite normalize_vmul_pos, normalize_unit by lra.
    reflexivity.
  - apply Rltb_false in E; repeat split; lra.
Qed.

Lemma aim_vector (e : GameEngine) (x : option Spaceship) (p : R) :
  slingshot_vector (set_aim_power (set_spaceship e x) p) = slingshot_vector e.
Proof. reflexivity. Qed.

Lemma aim_distance (e : GameEngine) (x : option Spaceship) (p : R) :
  slingshot_distance (set_aim_power (set_spaceship e x) p) = slingshot_distance e.
Proof. reflexivity. Qed.

Lemma aim_launch_velocity (e : GameEngine) (x : option Spaceship) (p : R) :
  launch_velocity (set_aim_power (set_spaceship e x) p) = launch_velocity e.
Proof. reflexivity. Qed.

Lemma aim_max (e : GameEngine) (x : option Spaceship) (p : R) :
  max_slingshot_distance (set_aim_power (set_spaceship e x) p) = max_slingshot_distance e.
Proof. reflexivity. Qed.

Lemma aim_spaceship (e : GameEngine) (x : option Spaceship) (p : R) :
  spaceship (set_aim_power (set_spaceship e x) p) = x.
Proof. reflexivity. Qed.

(** X17. While aiming, [update_aiming] keeps the pull within
    [max_slingshot_distance], leaves the launch it describes unchanged, and
    gives the spaceship, for the trajectory preview, exactly the velocity a
    release would then launch it with (or rest below the 10-pixel threshold). *)
Theorem update_aiming_preview (e : GameEngine) (s : Spaceship) :
  aiming_active e = true -> spaceship e = Some s -> 0 < max_slingshot_distance e ->
  let e' := update_aiming e in
  magnitude (slingshot_vector e') <= max_slingshot_distance e'
  /\ slingshot_distance e' = slingshot_distance e
  /\ launch_velocity e' = launch_velocity e
  /\ spaceship e'
     = Some (set_velocity s (if Rltb 10 (slingshot_distance e') then launch_velocity e'
                             else mkVector2D 0 0)).
Proof.
  intros Ha Hs Hmax e'; unfold e', update_aiming; clear e'.
  rewrite Ha, Hs.
  destruct (aim_constrain e Hmax) as [H1 [H2 [H3 H4]]].
  set (e1 := if Rltb (max_slingshot_distance e) (magnitude (slingshot_vector e)) then _ else e)
    in *.
  cbv zeta.
  destruct (Rltb 10 (slingshot_distance e)) eqn:E;
    rewrite aim_vector, aim_distance, aim_launch_velocity, aim_max, aim_spaceship, H2, H4, E;
    (split; [lra|]); (split; [reflexivity|]); (split; [exact H3|]);
    [rewrite H3|]; reflexivity.
Qed.

Lemma update_aiming_preview_witness :
  (aiming_active (ex_aiming_engine ex_one_shot_level (mkVector2D 100 300) (mkVector2D 0 300)) = true
   /\ spaceship (ex_aiming_engine ex_one_shot_level (mkVector2D 100 300) (mkVector2D 0 300))
      = Some (new_spaceship 100 300)
   /\ 0 < max_slingshot_distance
            (ex_aiming_engine ex_one_shot_level (mkVector2D 100 300) (mkVector2D 0 300)))
  /\ (let e' := update_aiming (ex_aiming_engine ex_one_shot_level (mkVector2D 100 300)
                                 (mkVector2D 0 300)) in
      magnitude (slingshot_vector e') <= max_slingshot_distance e'
      /\ slingshot_distance e'
         = slingshot_distance (ex_aiming_engine ex_one_shot_level (mkVector2D 100 300)
                                 (mkVector2D 0 300))
      /\ launch_velocity e'
         = launch_velocity (ex_aiming_engine ex_one_shot_level (mkVector2D 100 300)
                              (mkVector2D 0 300))
      /\ spaceship e'
         = Some (set_velocity (new_spaceship 100 300)
                   (if Rltb 10 (slingshot_distance e') then launch_velocity e'
                    else mkVector2D 0 0))).
Proof.
  split; [split; [reflexivity | split; [reflexivity | simpl; lra]]|].
  apply update_aiming_preview; [reflexivity | reflexivity | simpl; lra].
Defined.

Lemma handle_mouse_down_near (e : GameEngine) (s : Spaceship) :
  state e = AIMING -> spaceship e = Some s ->
  magnitude (vsub (mouse_pos e) (s_position s)) < 50 ->
  state (handle_mouse_down e) = AIMING
  /\ spaceship (handle_mouse_down e) = Some s
  /\ aiming_active (handle_mouse_down e) = true
  /\ slingshot_vector (handle_mouse_down e) = vsub (s_position s) (mouse_pos e)
  /\ max_slingshot_distance (handle_mouse_down e) = max_slingshot_distance e.
Proof.
  intros Hst Hs Hm; unfold handle_mouse_down; rewrite Hst, Hs.
  replace (Rltb (magnitude (vsub (mouse_pos e) (s_position s))) 50) with true
    by (symmetry; apply Rltb_true; exact Hm).
  cbn [state spaceship aiming_active max_slingshot_distance].
  repeat split.
Qed.

(** X18. A click on the spaceship with no drag is a shot: pressing and
    releasing the button at a point less than 50 pixels from the
    spaceship's centre launches it exactly when that point is more than 10
    pixels away (with the pull capped at [max_slingshot_distance]). *)
Theorem click_without_drag_launches (e : GameEngine) (s : Spaceship) :
  state e = AIMING -> spaceship e = Some s -> launched s = false ->
  magnitude (vsub (mouse_pos e) (s_position s)) < 50 ->
  (state (handle_mouse_up (handle_mouse_down e)) = FLYING
   <-> 10 < Rmin (magnitude (vsub (mouse_pos e) (s_position s)))
              (max_slingshot_distance e)).
Proof.
  intros Hst Hs Hl Hm.
  destruct (handle_mouse_down_near e s Hst Hs Hm) as [H1 [H2 [H3 [H4 H5]]]].
  set (ed := handle_mouse_down e) in *.
  assert (Hd : slingshot_distance (set_aiming_active ed false)
               = Rmin (magnitude (vsub (mouse_pos e) (s_position s)))
                   (max_slingshot_distance e)).
  { unfold slingshot_distance.
    change (slingshot_vector (set_aiming_active ed false)) with (slingshot_vector ed).
    change (max_slingshot_distance (set_aiming_active ed false))
      with (max_slingshot_distance ed).
    rewrite H4, H5, magnitude_vsub_sym; reflexivity. }
  unfold handle_mouse_up; rewrite H1, H3.
  unfold launch_spaceship.
  change (spaceship (set_aiming_active ed false)) with (spaceship ed).
  rewrite H2, Hl; cbn [negb].
  rewrite Hd.
  destruct (Rltb 10 _) eqn:E.
  - apply Rltb_true in E; split; [intros _; exact E | intros _; reflexivity].
  - apply Rltb_false in E; split; [|intro; contradiction].
    change (state (set_aiming_active ed false)) with (state ed).
    rewrite H1; discriminate.
Qed.

Lemma click_without_drag_launches_witness :
  (state (ex_aiming_engine ex_one_shot_level (mkVector2D 0 0) (mkVector2D 130 300)) = AIMING
   /\ spaceship (ex_aiming_engine ex_one_shot_level (mkVector2D 0 0) (mkVector2D 130 300))
      = Some (new_spaceship 100 300)
   /\ launched (new_spaceship 100 300) = false
   /\ magnitude (vsub (mouse_pos (ex_aiming_engine ex_one_shot_level (mkVector2D 0 0)
                                    (mkVector2D 130 300)))
                   (s_position (new_spaceship 100 300))) < 50)
  /\ (state (handle_mouse_up (handle_mouse_down
              (ex_aiming_engine ex_one_shot_level (mkVector2D 0 0) (mkVector2D 130 300))))
        = FLYING
      <-> 10 < Rmin (magnitude (vsub (mouse_pos (ex_aiming_engine ex_one_shot_level
                                                   (mkVector2D 0 0) (mkVector2D 130 300)))
                                  (s_position (new_spaceship 100 300))))
                 (max_slingshot_distance (ex_aiming_engine ex_one_shot_level
                                            (mkVector2D 0 0) (mkVector2D 130 300)))).
Proof.
  assert (Hm : magnitude (vsub (mouse_pos (ex_aiming_engine ex_one_shot_level (mkVector2D 0 0)
                                             (mkVector2D 130 300)))
                            (s_position (new_spaceship 100 300))) < 50).
  { replace (vsub (mouse_pos (ex_aiming_engine ex_one_shot_level (mkVector2D 0 0)
                                (mkVector2D 130 300)))
               (s_position (new_spaceship 100 300))) with (mkVector2D 30 0)
      by (apply vec_ext; simpl; ring).
    rewrite magnitude_axis; lra. }
  split; [split; [reflexivity | split; [reflexivity | split; [reflexivity | exact Hm]]]|].
  apply click_without_drag_launches; [reflexivity | reflexivity | reflexivity | exact Hm].
Defined.

(** ** Further properties of level loading and level progression *)

(** X19. [create_object_from_data] gives [None] exactly when the entry's
    ["type"] is missing or is none of the five known names. *)
Theorem create_object_from_data_none (id : nat) (obj_data : ObjData) :
  create_object_from_data id obj_data = None
  <-> ~ exists t, d_type obj_data = Some t /\ In t known_types.
Proof.
  unfold create_object_from_data, known_types.
  destruct (d_type obj_data) as [t|].
  - destruct (String.eqb t "planet") eqn:E1;
      [apply String.eqb_eq in E1; subst; split;
       [discriminate | intros H; exfalso; apply H; eexists; split; [reflexivity | simpl; tauto]]|].
    destruct (String.eqb t "black_hole") eqn:E2;
      [apply String.eqb_eq in E2; subst; split;
       [discriminate | intros H; exfalso; apply H; eexists; split; [reflexivity | simpl; tauto]]|].
    destruct (String.eqb t "anti_gravity") eqn:E3;
      [apply String.eqb_eq in E3; subst; split;
       [discriminate | intros H; exfalso; apply H; eexists; split; [reflexivity | simpl; tauto]]|].
    destruct (String.eqb t "goal") eqn:E4;
      [apply String.eqb_eq in E4; subst; split;
       [discriminate | intros H; exfalso; apply H; eexists; split; [reflexivity | simpl; tauto]]|].
    destruct (String.eqb t "obstacle") eqn:E5;
      [apply String.eqb_eq in E5; subst; split;
       [discriminate | intros H; exfalso; apply H; eexists; split; [reflexivity | simpl; tauto]]|].
    apply String.eqb_neq in E1, E2, E3, E4, E5.
    split; [intros _ [t' [Ht Hin]] | reflexivity].
    injection Ht as <-; simpl in Hin; intuition congruence.
  - split; [intros _ [t' [Ht _]]; discriminate | reflexivity].
Qed.

Lemma load_step_eq (i : nat) (objs srcs : list GameObject) (g : option GameObject)
    (d : ObjData) :
  load_step (i, objs, srcs, g) d
  = match create_object_from_data i d with
    | Some obj =>
        (S i, objs ++ [obj], if Rltb 0 (mass obj) then srcs ++ [obj] else srcs,
         match kind obj with KGoal => Some obj | _ => g end)
    | None => (S i, objs, srcs, g)
    end.
Proof. reflexivity. Qed.

Lemma load_objects_fold (ds : list ObjData) (i : nat) (objs srcs : list GameObject)
    (g : option GameObject) :
  fold_left load_step ds (i, objs, srcs, g)
  = ((i + length ds)%nat, objs ++ created_objects i ds,
     srcs ++ filter (fun o => Rltb 0 (mass o)) (created_objects i ds),
     match last_goal (created_objects i ds) with Some x => Some x | None => g end).
Proof.
  revert i objs srcs g; induction ds as [|d ds IH]; intros i objs srcs g.
  - simpl; rewrite Nat.add_0_r, !app_nil_r; reflexivity.
  - cbn [fold_left]; rewrite load_step_eq.
    simpl created_objects.
    destruct (create_object_from_data i d) as [o|] eqn:Ed.
    + rewrite IH; simpl.
      replace (i + S (length ds))%nat with (S i + length ds)%nat by lia.
      rewrite <- app_assoc; simpl.
      f_equal; [f_equal|].
      * destruct (Rltb 0 (mass o)); [rewrite <- app_assoc|]; reflexivity.
      * destruct (last_goal (created_objects (S i) ds)); [reflexivity|].
        destruct (kind o); reflexivity.
    + rewrite IH; simpl.
      replace (i + S (length ds))%nat with (S i + length ds)%nat by lia.
      reflexivity.
Qed.

(** X20. Loading a level keeps, in file order, every object the loader
    could build; its gravity sources are exactly those of positive mass, in
    the same order; its goal is the last goal of the file (none if there is
    none); and no shot has been used yet. *)
Theorem level_of_data_structure (data : LevelData) :
  let objs := created_objects 0 (get (ld_objects data) []) in
  objects (level_of_data data) = objs
  /\ gravity_sources (level_of_data data) = filter (fun o => Rltb 0 (mass o)) objs
  /\ goal (level_of_data data) = last_goal objs
  /\ shots_used (level_of_data data) = 0%Z.
Proof.
  intro objs; unfold level_of_data.
  rewrite load_objects_fold; simpl.
  fold objs; repeat split.
  destruct (last_goal objs); reflexivity.
Qed.

Lemma created_objects_mass (i : nat) (ds : list ObjData) (o : GameObject) :
  In o (created_objects i ds) ->
  kind o = KGoal \/ kind o = KObstacle -> mass o = 0.
Proof.
  revert i; induction ds as [|d ds IH]; intros i Hin Hk; [destruct Hin|].
  simpl in Hin.
  destruct (create_object_from_data i d) as [o'|] eqn:Ed; [|eapply IH; eauto].
  destruct Hin as [<-|Hin]; [|eapply IH; eauto].
  unfold create_object_from_data in Ed.
  destruct (d_type d) as [t|]; [|discriminate].
  repeat match type of Ed with
  | (if ?c then _ else _) = _ => destruct c
  end; try discriminate; injection Ed as <-; simpl in Hk |- *;
    try reflexivity; destruct Hk; discriminate.
Qed.

(** X21. Goals and obstacles never pull: no goal or obstacle of a loaded
    level is among its gravity sources. *)
Theorem level_sources_exclude_goals_obstacles (data : LevelData) (o : GameObject) :
  In o (gravity_sources (level_of_data data)) ->
  kind o <> KGoal /\ kind o <> KObstacle.
Proof.
  destruct (level_of_data_structure data) as [_ [Hs _]]; rewrite Hs.
  intro Hin; apply filter_In in Hin as [Hin Hp].
  apply Rltb_true in Hp.
  split; intro Hk;
    pose proof (created_objects_mass _ _ o Hin (ltac:(tauto))); lra.
Qed.

Lemma level_sources_exclude_goals_obstacles_witness :
  In (new_planet 0 400 300 80 25 (100, 100, 200))
     (gravity_sources create_tutorial_level)
  /\ kind (new_planet 0 400 300 80 25 (100, 100, 200)) <> KGoal
  /\ kind (new_planet 0 400 300 80 25 (100, 100, 200)) <> KObstacle.
Proof.
  assert (Hin : In (new_planet 0 400 300 80 25 (100, 100, 200))
                   (gravity_sources create_tutorial_level)).
  { pose proof (level_of_data_structure tutorial_data) as H; cbv zeta in H.
    destruct H as [_ [Hs _]].
    unfold create_tutorial_level; rewrite Hs.
    simpl created_objects; simpl filter.
    match goal with |- In _ (if Rltb 0 ?c then _ else _) =>
      replace (Rltb 0 c) with true
        by (symmetry; apply Rltb_true;
            repeat match goal with |- context [if ?b then _ else _] => destruct b end; lra)
    end.
    left; reflexivity. }
  split; [exact Hin|].
  apply (level_sources_exclude_goals_obstacles
           tutorial_data).
  exact Hin.
Defined.

Lemma navigate_index (lm : LevelManager) (forward : bool) :
  levels (navigate lm forward) = levels lm
  /\ ((0 <= current_level_index lm < Z.of_nat (length (levels lm)))%Z ->
      (0 <= current_level_index (navigate lm forward)
         < Z.of_nat (length (levels lm)))%Z).
Proof.
  unfold navigate, next_level, previous_level.
  destruct forward.
  - destruct (current_level_index lm <? Z.of_nat (length (levels lm)) - 1)%Z eqn:E;
      simpl; [apply Z.ltb_lt in E; split; [reflexivity | lia] | split; [reflexivity | tauto]].
  - destruct (0 <? current_level_index lm)%Z eqn:E;
      simpl; [apply Z.ltb_lt in E; split; [reflexivity | lia] | split; [reflexivity | tauto]].
Qed.

(** X22. The level keys never leave the list of levels: from the manager
    [load_all_levels] sets up (the tutorial level standing in when no file
    loads), after any run of next/previous requests [get_current_level]
    still finds a level. *)
Theorem navigate_keeps_current_level (loaded : list Level) (keys : list bool) :
  levels (fold_left navigate keys (new_level_manager loaded)) = ensure_levels loaded
  /\ exists l, get_current_level (fold_left navigate keys (new_level_manager loaded)) = Some l.
Proof.
  assert (Hinv : forall lm, (0 <= current_level_index lm < Z.of_nat (length (levels lm)))%Z ->
            levels (fold_left navigate keys lm) = levels lm
            /\ (0 <= current_level_index (fold_left navigate keys lm)
                  < Z.of_nat (length (levels lm)))%Z).
  { induction keys as [|k keys IH]; intros lm H; [split; [reflexivity | exact H]|].
    simpl; destruct (navigate_index lm k) as [Hl Hi].
    destruct (IH (navigate lm k)) as [H1 H2]; [rewrite Hl; apply Hi; exact H|].
    rewrite H1, Hl in *; split; [reflexivity | exact H2]. }
  assert (H0 : (0 <= current_level_index (new_level_manager loaded)
                  < Z.of_nat (length (levels (new_level_manager loaded))))%Z).
  { simpl; destruct loaded; simpl; lia. }
  destruct (Hinv _ H0) as [H1 H2]; split; [exact H1|].
  unfold get_current_level.
  rewrite H1; cbn [levels new_level_manager] in H2 |- *.
  replace ((0 <=? _)%Z && _) with true
    by (symmetry; apply andb_true_iff; split; [apply Z.leb_le | apply Z.ltb_lt]; lia).
  destruct (nth_error _ _) eqn:E; [eexists; reflexivity|].
  apply nth_error_None in E; lia.
Qed.

Lemma shot_budget_same (M : Z) (e e' : GameEngine) :
  state e' = state e -> spaceship e' = spaceship e ->
  current_level e' = current_level e ->
  shot_budget_ok M e -> shot_budget_ok M e'.
Proof. unfold shot_budget_ok; intros -> -> ->; tauto. Qed.

Lemma shot_budget_reset (M : Z) (e : GameEngine) :
  max_shots (current_level e) = M -> (0 <= shots_used (current_level e) <= M)%Z ->
  shot_budget_ok M (reset_for_next_shot e).
Proof.
  intros Hm Hs; unfold reset_for_next_shot, shot_budget_ok.
  destruct (max_shots (current_level e) <=? shots_used (current_level e))%Z eqn:E;
    simpl.
  - apply Z.leb_le in E.
    repeat split; intros; try discriminate; lia.
  - apply Z.leb_gt in E.
    repeat split; intros; try discriminate; try lia.
    eexists; split; reflexivity.
Qed.

Lemma collision_scan_cases (s : Spaceship) (objs : list GameObject) (e : GameEngine) :
  collision_scan s objs e = e
  \/ collision_scan s objs e = set_state e LEVEL_COMPLETE
  \/ collision_scan s objs e = reset_for_next_shot e.
Proof.
  induction objs as [|o objs IH]; simpl; [tauto|].
  destruct (collides_with s o); [|exact IH].
  destruct (is_goal (current_level e) o); tauto.
Qed.

Lemma spaceship_update_launched (s : Spaceship) :
  launched (spaceship_update s) = launched s.
Proof. unfold spaceship_update; destruct (launched s) eqn:E; simpl; auto. Qed.

Lemma use_thruster_launched (s : Spaceship) (d : Vector2D) (p : R) :
  launched (use_thruster s d p) = launched s.
Proof. unfold use_thruster; destruct (_ && _); reflexivity. Qed.

Lemma shot_budget_update_flying (M : Z) (e : GameEngine) (dt : R) :
  shot_budget_ok M e -> shot_budget_ok M (update_flying e dt).
Proof.
  intro H; pose proof H as [Hm [Hs [Ha [Hf Hg]]]].
  unfold update_flying.
  destruct (spaceship e) as [s|] eqn:Es; [|exact H].
  destruct (launched s) eqn:El; [|exact H].
  set (s1 := advance_spaceship (physics e) (current_level e) s dt).
  assert (Hl1 : launched s1 = true).
  { unfold s1, advance_spaceship.
    destruct (update_object_physics _ _ _ _ _ _).
    rewrite spaceship_update_launched; exact El. }
  set (e0 := set_spaceship e (Some s1)).
  assert (H0 : shot_budget_ok M e0).
  { unfold shot_budget_ok in *; cbn [e0 set_spaceship state spaceship current_level].
    split; [exact Hm|]; split; [exact Hs|].
    split; [intro HA; exfalso; destruct (Ha HA) as [_ [s' [Hs' Hl']]]; congruence|].
    split; [intros _; exists s1; split; [reflexivity | exact Hl1] | exact Hg]. }
  assert (H1 : shot_budget_ok M (check_collisions e0)).
  { unfold check_collisions; cbn [e0 set_spaceship spaceship]; rewrite Hl1.
    destruct (collision_scan_cases s1 (objects (current_level e0)) e0)
      as [Hc|[Hc|Hc]]; rewrite Hc.
    - exact H0.
    - destruct H0 as [A [B _]]; unfold shot_budget_ok.
      cbn [set_state state spaceship current_level] in *.
      split; [exact A|]; split; [exact B|].
      split; [|split]; intro HX; discriminate HX.
    - apply shot_budget_reset; [exact Hm | exact Hs]. }
  set (e1 := check_collisions e0) in *.
  assert (Hlev : current_level e1 = current_level e).
  { unfold e1, check_collisions; cbn [e0 set_spaceship spaceship]; rewrite Hl1.
    destruct (collision_scan_cases s1 (objects (current_level e0)) e0)
      as [Hc|[Hc|Hc]]; rewrite Hc; [reflexivity | reflexivity|].
    unfold reset_for_next_shot; destruct (_ <=? _)%Z; reflexivity. }
  destruct (spaceship e1) as [s2|]; [|exact H1].
  destruct (off_screen e1 (s_position s2)); [|exact H1].
  apply shot_budget_reset; rewrite Hlev; [exact Hm | exact Hs].
Qed.

Lemma shot_budget_update_aiming (M : Z) (e : GameEngine) :
  shot_budget_ok M e -> state e = AIMING -> shot_budget_ok M (update_aiming e).
Proof.
  intros H HA; pose proof H as [Hm [Hs [Ha [Hf Hg]]]].
  destruct (Ha HA) as [Hlt [s [Es El]]].
  unfold update_aiming; rewrite Es.
  destruct (aiming_active e); [|exact H].
  set (e1 := if Rltb _ _ then _ else e).
  assert (Hf1 : state e1 = state e /\ current_level e1 = current_level e).
  { unfold e1; destruct (Rltb _ _); split; reflexivity. }
  destruct Hf1 as [Hst1 Hlv1].
  destruct (Rltb 10 (slingshot_distance e)); unfold shot_budget_ok;
    cbn [set_aim_power set_spaceship state spaceship current_level];
    rewrite Hst1, Hlv1, HA;
    (split; [exact Hm|]); (split; [exact Hs|]);
    (split; [intros _; split; [exact Hlt | eexists; split; [reflexivity | exact El]]|]);
    split; intro HX; discriminate HX.
Qed.

Lemma shot_budget_step (M : Z) (e : GameEngine) (i : Input) :
  shot_budget_ok M e -> shot_budget_ok M (step_input e i).
Proof.
  intro H; pose proof H as [Hm [Hs [Ha [Hf Hg]]]].
  destruct i as [| |p|dt| |]; simpl step_input.
  - unfold handle_mouse_down.
    destruct (state e) eqn:Est, (spaceship e) eqn:Es; try exact H.
    destruct (Rltb _ 50); [|exact H].
    revert H; apply shot_budget_same; simpl; congruence.
  - unfold handle_mouse_up.
    destruct (state e) eqn:Est; try exact H.
    destruct (aiming_active e); [|exact H].
    destruct (Ha eq_refl) as [Hlt [s [Es El]]].
    unfold launch_spaceship; cbn [spaceship set_aiming_active]; rewrite Es, El.
    simpl negb.
    destruct (Rltb 10 _).
    + unfold shot_budget_ok; cbn [set_level set_state set_spaceship set_shots_used
        state spaceship current_level set_aiming_active max_shots shots_used].
      split; [exact Hm|]; split; [lia|].
      split; [intro HX; discriminate HX|].
      split; [intros _; eexists; split; reflexivity | intro HX; discriminate HX].
    + revert H; apply shot_budget_same; reflexivity.
  - revert H; apply shot_budget_same; reflexivity.
  - unfold update_game; destruct (state e) eqn:Est; try exact H.
    + apply shot_budget_update_aiming; assumption.
    + apply shot_budget_update_flying; exact H.
  - unfold handle_key_space.
    destruct (state e) eqn:Est, (spaceship e) as [s|] eqn:Es; try exact H.
    destruct (0 <? fuel s)%Z; [|exact H].
    destruct (Hf eq_refl) as [s' [Es' El]]; injection Es' as <-.
    unfold shot_budget_ok in *; cbn [set_spaceship state spaceship current_level].
    rewrite Est; split; [exact Hm|]; split; [exact Hs|].
    split; [intro HX; discriminate HX|].
    split; [|intro HX; discriminate HX].
    intros _; eexists; split; [reflexivity|]; rewrite use_thruster_launched; exact El.
  - unfold handle_key_shift.
    destruct (state e) eqn:Est, (spaceship e) as [s|] eqn:Es; try exact H.
    destruct (0 <? fuel s)%Z; [|exact H].
    destruct (Rltb 0 _); [|exact H].
    destruct (Hf eq_refl) as [s' [Es' El]]; injection Es' as <-.
    unfold shot_budget_ok in *; cbn [set_spaceship state spaceship current_level].
    rewrite Est; split; [exact Hm|]; split; [exact Hs|].
    split; [intro HX; discriminate HX|].
    split; [|intro HX; discriminate HX].
    intros _; eexists; split; [reflexivity|]; rewrite use_thruster_launched; exact El.
Qed.

(** X23. Within a level the shot budget holds whatever the player does:
    along any run of mouse presses, releases and moves, ticks and thrust
    keys, at most [max_shots] shots are used, aiming happens only with a
    shot left and an unlaunched spaceship, flight only with a launched
    one, and the game is over only when every shot is spent. *)
Theorem run_inputs_shot_budget (M : Z) (e : GameEngine) (inputs : list Input) :
  shot_budget_ok M e -> shot_budget_ok M (run_inputs e inputs).
Proof.
  unfold run_inputs; revert e; induction inputs as [|i inputs IH]; intros e H;
    [exact H|].
  simpl; apply IH, shot_budget_step, H.
Qed.

Lemma run_inputs_shot_budget_witness :
  shot_budget_ok 1
    (ex_aiming_engine ex_one_shot_level (mkVector2D 100 300) (mkVector2D 50 300))
  /\ shot_budget_ok 1
       (run_inputs (ex_aiming_engine ex_one_shot_level (mkVector2D 100 300)
                      (mkVector2D 50 300))
          [MouseDown; Tick (1 / 60); MouseUp; Tick (1 / 60); KeySpace; Tick (1 / 60)]).
Proof.
  assert (H : shot_budget_ok 1
                (ex_aiming_engine ex_one_shot_level (mkVector2D 100 300) (mkVector2D 50 300))).
  { unfold shot_budget_ok; simpl.
    split; [reflexivity|]; split; [lia|].
    split; [intros _; split; [lia | eexists; split; reflexivity]|].
    split; intro HX; discriminate HX. }
  split; [exact H|].
  apply run_inputs_shot_budget; exact H.
Defined.

(** ** Further properties of the level keys *)










